(** * QgsVectorTileLayer: source resolution, persistence and raw tile access

    A shallow embedding of [src/core/vectortile/qgsvectortilelayer.cpp].
    The layer object is a record of its member variables, every member
    function is a function from the layer (and its arguments) to the
    returned value and the updated layer.  The classes the file only
    calls (the URI container, QUrl, the path resolver, the MBTiles reader,
    the blocking network request, the JSON parser, the tile loader, the
    renderer and labeling classes) are interfaces: type classes whose
    operations are parameters of the embedding. *)

From Stdlib Require Import ZArith Lia Bool Ascii String List.
From stdpp Require Import base option strings list gmap.

Local Open Scope string_scope.
Local Open Scope Z_scope.
Set Warnings "-register-all".

(** ** Qt value types *)

(** [QByteArray]. *)
Definition QByteArray := list Byte.byte.

(** A C++ [int]: a 32-bit two's complement integer, kept as a [Z]. *)
Definition wrap32 (z : Z) : Z := (z + 2 ^ 31) mod 2 ^ 32 - 2 ^ 31.

(** [QVariant], as far as a JSON document produces it.  JSON numbers are
    kept as integers: the document fields the layer converts to numbers
    ([maxzoom]) are integral. *)
Inductive QVariant : Type :=
  | VInvalid
  | VBool (b : bool)
  | VNum (n : Z)
  | VString (s : string)
  | VList (l : list QVariant)
  | VMap (m : gmap string QVariant).

(** [QVariantMap]. *)
Abbreviation QVariantMap := (gmap string QVariant).

(** [QMap::value( key )]: the stored value or a default-constructed one. *)
Definition QVariantMap_value (m : QVariantMap) (key : string) : QVariant :=
  default VInvalid (m !! key).

(** [QMap::contains( key )]. *)
Definition QVariantMap_contains (m : QVariantMap) (key : string) : bool :=
  match m !! key with
  | Some _ => true
  | None => false
  end.

(** [QVariant::toList()]: only a list converts, anything else is empty. *)
Definition QVariant_toList (v : QVariant) : list QVariant :=
  match v with
  | VList l => l
  | _ => []
  end.

(** [QList::value( i )]: the i-th element or a default-constructed one. *)
Definition QList_value (l : list QVariant) (i : nat) : QVariant :=
  default VInvalid (l !! i).

(** Decimal rendering of an integer, as [QString::number]. *)
Fixpoint digits_of (fuel : nat) (p : Z) (acc : string) : string :=
  match fuel with
  | O => acc
  | S fuel' =>
      let acc' := String (ascii_of_nat (48 + Z.to_nat (p mod 10))%nat) acc in
      if p / 10 =? 0 then acc' else digits_of fuel' (p / 10) acc'
  end.

Definition QString_number (z : Z) : string :=
  if z <? 0
  then String "-" (digits_of (S (Z.to_nat (Z.log2 (- z)))) (- z) "")
  else digits_of (S (Z.to_nat (Z.log2 z))) z "".

(** [QVariant::toString()]. *)
Definition QVariant_toString (v : QVariant) : string :=
  match v with
  | VString s => s
  | VNum n => QString_number n
  | VBool true => "true"
  | VBool false => "false"
  | _ => ""
  end.

(** [QJsonDocument]: a parsed document holds an object or an array. *)
Inductive QJsonDocument : Type :=
  | JsonObject (m : QVariantMap)
  | JsonArray (l : list QVariant).

(** [doc.object().toVariantMap()]: the object of an array document is the
    empty object. *)
Definition QJsonDocument_object_toVariantMap (doc : QJsonDocument) : QVariantMap :=
  match doc with
  | JsonObject m => m
  | JsonArray _ => ∅
  end.

(** The service document with one tile template and a maximum zoom of 16. *)
Definition arcgisDocument : QVariantMap :=
  {[ "tiles" := VList [VString "{z}/{x}/{y}.pbf"]; "maxzoom" := VNum 16 ]}.

(** [QFlags::testFlag]: the flags are an [int] used as a bit set. *)
Definition testFlag (flags flag : Z) : bool :=
  (Z.land flags flag =? flag) && (negb (flag =? 0) || (flags =? flag)).

(** ** The XML DOM, as far as [readSymbology] walks it *)

Inductive QDomElement : Type :=
  DomElement (tagName : string) (attributes : gmap string string)
             (childElements : list QDomElement).

Inductive QDomNode : Type :=
  | ElementNode (e : QDomElement)
  | OtherNode.

Definition QDomElement_tagName (e : QDomElement) : string :=
  match e with DomElement t _ _ => t end.

(** [QDomNode::toElement()]; [None] is the null element. *)
Definition toElement (n : QDomNode) : option QDomElement :=
  match n with
  | ElementNode e => Some e
  | OtherNode => None
  end.

(** [QDomElement::firstChildElement( tagName )]; a null element has no
    children. *)
Definition firstChildElement (elem : option QDomElement) (name : string)
  : option QDomElement :=
  match elem with
  | Some (DomElement _ _ children) =>
      List.find (fun c => (QDomElement_tagName c =? name)%string) children
  | None => None
  end.

(** [QDomElement::attribute( name )], with its empty default value. *)
Definition attribute (e : QDomElement) (name : string) : string :=
  match e with DomElement _ attrs _ => default "" (attrs !! name) end.

(** ** Tiles *)

Record QgsTileXYZ : Type := mkTileXYZ {
  column : Z;
  row : Z;
  zoomLevel : Z
}.

Record QgsTileRange : Type := mkTileRange {
  startColumn : Z;
  endColumn : Z;
  startRow : Z;
  endRow : Z
}.

Record QgsVectorTileRawData : Type := mkRawData {
  id : QgsTileXYZ;
  data : QByteArray
}.

(** [QgsBlockingNetworkRequest::ErrorCode]. *)
Inductive ErrorCode : Type :=
  | NoError
  | NetworkError
  | TimeoutError
  | ServerExceptionError.

(** ** Collaborators

    The classes and functions the file calls and does not define. *)

(** [QString::toInt( &ok )] and [QString::toLongLong( &ok )]: [Some n] is
    the value [n] with [ok] set, [None] is the value 0 with [ok] cleared. *)
Class QStringOps := {
  QString_toInt : string → option Z;
  QString_toLongLong : string → option Z
}.

(** [QUrl]. *)
Class QUrlOps := {
  QUrl : Type;
  QUrl_new : string → QUrl;
  isLocalFile : QUrl → bool;
  toLocalFile : QUrl → string;
  fromLocalFile : string → QUrl;
  QUrl_toString : QUrl → string
}.

(** [QgsDataSourceUri].  [setEncodedUri] is the state of a fresh object
    after the call. *)
Class DataSourceUriOps := {
  QgsDataSourceUri : Type;
  setEncodedUri : string → QgsDataSourceUri;
  param : QgsDataSourceUri → string → string;
  hasParam : QgsDataSourceUri → string → bool;
  removeParam : QgsDataSourceUri → string → QgsDataSourceUri;
  setParam : QgsDataSourceUri → string → string → QgsDataSourceUri;
  encodedUri : QgsDataSourceUri → string;
  authConfigId : QgsDataSourceUri → string
}.

(** [QgsReadWriteContext] and the [QgsPathResolver] it carries. *)
Class PathResolverOps := {
  QgsReadWriteContext : Type;
  readPath : QgsReadWriteContext → string → string;
  writePath : QgsReadWriteContext → string → string
}.

(** [QgsVectorTileUtils::checkXYZUrlTemplate]. *)
Class VectorTileUtilsOps := {
  checkXYZUrlTemplate : string → bool
}.

(** [QgsRectangle] and the EPSG:4326 to EPSG:3857 bounding box transform.
    Coordinates are doubles; the rectangle type stays opaque.
    [webMercatorBounds] is the rectangle with all four coordinates
    20037508.3427892 in absolute value. *)
Class GeometryOps := {
  QgsRectangle : Type;
  nullRectangle : QgsRectangle;
  webMercatorBounds : QgsRectangle;
  transformBoundingBox : QgsRectangle → QgsRectangle
}.

(** [QgsMbTiles]: [mbtiles_open path] is the reader after a successful
    [open()], [None] when [open()] fails. *)
Class MbTilesOps `{GeometryOps} := {
  QgsMbTiles : Type;
  mbtiles_open : string → option QgsMbTiles;
  metadataValue : QgsMbTiles → string → string;
  extent : QgsMbTiles → QgsRectangle
}.

(** [QgsBlockingNetworkRequest::get] with the content of its reply, and
    [QJsonDocument::fromJson] ([None] is the null document). *)
Class NetworkOps := {
  blockingGet : string → ErrorCode * QByteArray;
  fromJson : QByteArray → option QJsonDocument
}.

(** [QgsTileMatrix::fromWebMercator] and
    [QgsVectorTileLoader::blockingFetchTileRawData]. *)
Class TileLoaderOps := {
  QgsTileMatrix : Type;
  fromWebMercator : Z → QgsTileMatrix;
  blockingFetchTileRawData :
    string → string → QgsTileMatrix → QgsTileRange → string → string →
    list QgsVectorTileRawData
}.

(** The renderer and labeling classes. *)
Class StyleOps `{PathResolverOps} := {
  QgsVectorTileRenderer : Type;
  QgsVectorTileLabeling : Type;
  QgsVectorTileBasicStyles : Type;
  QgsVectorTileBasicRenderer_new : QgsVectorTileRenderer;
  simpleStyleWithRandomColors : QgsVectorTileBasicStyles;
  setStyles : QgsVectorTileRenderer → QgsVectorTileBasicStyles → QgsVectorTileRenderer;
  renderer_readXml :
    QgsVectorTileRenderer → QDomElement → QgsReadWriteContext → QgsVectorTileRenderer;
  QgsVectorTileBasicLabeling_new : QgsVectorTileLabeling;
  labeling_readXml :
    QgsVectorTileLabeling → QDomElement → QgsReadWriteContext → QgsVectorTileLabeling
}.

(** What the base class [QgsMapLayer] and the header declare: the style
    category flags, the initial values of the zoom members, the state of
    the base class behind [readCommonStyle] and [readStyleManager], and
    the translation function [tr]. *)
Class MapLayerOps `{PathResolverOps} := {
  Symbology : Z;
  Labeling : Z;
  AllStyleCategories : Z;
  initialSourceMinZoom : Z;
  initialSourceMaxZoom : Z;
  BaseState : Type;
  QgsMapLayer_new : string → BaseState;
  readCommonStyle :
    BaseState → option QDomElement → QgsReadWriteContext → Z → BaseState;
  readStyleManager : BaseState → QDomNode → BaseState;
  tr : string → string
}.

(** ** The layer *)

Section Layer.

Context `{QStringOps} `{QUrlOps} `{DataSourceUriOps} `{PathResolverOps}
        `{VectorTileUtilsOps} `{GeometryOps} `{!MbTilesOps} `{NetworkOps}
        `{TileLoaderOps} `{!StyleOps} `{!MapLayerOps}.

(** The value of [QString::toInt()] when [ok] is not looked at. *)
Definition toInt (s : string) : Z := default 0 (QString_toInt s).

(** [QVariant::toInt()]: the number converted to [qlonglong] and cut to
    an [int]. *)
Definition QVariant_toInt (v : QVariant) : Z :=
  match v with
  | VNum n => wrap32 n
  | VBool b => if b then 1 else 0
  | VString s => wrap32 (default 0 (QString_toLongLong s))
  | _ => 0
  end.

(** The member variables of [QgsVectorTileLayer], with the ones of
    [QgsMapLayer] the file sets: validity, extent and CRS (the CRS by its
    definition string, empty for the invalid CRS). *)
Record QgsVectorTileLayer : Type := mkLayer {
  mBase : BaseState;
  mValid : bool;
  mExtent : QgsRectangle;
  mCrs : string;
  mDataSource : string;
  mSourceType : string;
  mSourcePath : string;
  mSourceMinZoom : Z;
  mSourceMaxZoom : Z;
  mArcgisLayerConfiguration : QVariantMap;
  mRenderer : option QgsVectorTileRenderer;
  mLabeling : option QgsVectorTileLabeling
}.

Definition set_mBase (l : QgsVectorTileLayer) (v : BaseState) :=
  mkLayer v (mValid l) (mExtent l) (mCrs l) (mDataSource l) (mSourceType l)
    (mSourcePath l) (mSourceMinZoom l) (mSourceMaxZoom l)
    (mArcgisLayerConfiguration l) (mRenderer l) (mLabeling l).

Definition setValid (l : QgsVectorTileLayer) (v : bool) :=
  mkLayer (mBase l) v (mExtent l) (mCrs l) (mDataSource l) (mSourceType l)
    (mSourcePath l) (mSourceMinZoom l) (mSourceMaxZoom l)
    (mArcgisLayerConfiguration l) (mRenderer l) (mLabeling l).

Definition setExtent (l : QgsVectorTileLayer) (v : QgsRectangle) :=
  mkLayer (mBase l) (mValid l) v (mCrs l) (mDataSource l) (mSourceType l)
    (mSourcePath l) (mSourceMinZoom l) (mSourceMaxZoom l)
    (mArcgisLayerConfiguration l) (mRenderer l) (mLabeling l).

Definition setCrs (l : QgsVectorTileLayer) (v : string) :=
  mkLayer (mBase l) (mValid l) (mExtent l) v (mDataSource l) (mSourceType l)
    (mSourcePath l) (mSourceMinZoom l) (mSourceMaxZoom l)
    (mArcgisLayerConfiguration l) (mRenderer l) (mLabeling l).

Definition set_mSourceType (l : QgsVectorTileLayer) (v : string) :=
  mkLayer (mBase l) (mValid l) (mExtent l) (mCrs l) (mDataSource l) v
    (mSourcePath l) (mSourceMinZoom l) (mSourceMaxZoom l)
    (mArcgisLayerConfiguration l) (mRenderer l) (mLabeling l).

Definition set_mSourcePath (l : QgsVectorTileLayer) (v : string) :=
  mkLayer (mBase l) (mValid l) (mExtent l) (mCrs l) (mDataSource l)
    (mSourceType l) v (mSourceMinZoom l) (mSourceMaxZoom l)
    (mArcgisLayerConfiguration l) (mRenderer l) (mLabeling l).

Definition set_mSourceMinZoom (l : QgsVectorTileLayer) (v : Z) :=
  mkLayer (mBase l) (mValid l) (mExtent l) (mCrs l) (mDataSource l)
    (mSourceType l) (mSourcePath l) v (mSourceMaxZoom l)
    (mArcgisLayerConfiguration l) (mRenderer l) (mLabeling l).

Definition set_mSourceMaxZoom (l : QgsVectorTileLayer) (v : Z) :=
  mkLayer (mBase l) (mValid l) (mExtent l) (mCrs l) (mDataSource l)
    (mSourceType l) (mSourcePath l) (mSourceMinZoom l) v
    (mArcgisLayerConfiguration l) (mRenderer l) (mLabeling l).

Definition set_mArcgisLayerConfiguration (l : QgsVectorTileLayer) (v : QVariantMap) :=
  mkLayer (mBase l) (mValid l) (mExtent l) (mCrs l) (mDataSource l)
    (mSourceType l) (mSourcePath l) (mSourceMinZoom l) (mSourceMaxZoom l)
    v (mRenderer l) (mLabeling l).

(** [setRenderer]: [mRenderer.reset( r )]; the repaint request leaves the
    members alone. *)
Definition setRenderer (l : QgsVectorTileLayer) (r : option QgsVectorTileRenderer) :=
  mkLayer (mBase l) (mValid l) (mExtent l) (mCrs l) (mDataSource l)
    (mSourceType l) (mSourcePath l) (mSourceMinZoom l) (mSourceMaxZoom l)
    (mArcgisLayerConfiguration l) r (mLabeling l).

(** [setLabeling]. *)
Definition setLabeling (l : QgsVectorTileLayer) (lab : option QgsVectorTileLabeling) :=
  mkLayer (mBase l) (mValid l) (mExtent l) (mCrs l) (mDataSource l)
    (mSourceType l) (mSourcePath l) (mSourceMinZoom l) (mSourceMaxZoom l)
    (mArcgisLayerConfiguration l) (mRenderer l) lab.

(** [renderer()] and [labeling()]: the raw pointers, [None] for null. *)
Definition renderer (l : QgsVectorTileLayer) : option QgsVectorTileRenderer :=
  mRenderer l.

Definition labeling (l : QgsVectorTileLayer) : option QgsVectorTileLabeling :=
  mLabeling l.

Definition sourceMinZoom (l : QgsVectorTileLayer) : Z := mSourceMinZoom l.
Definition sourceMaxZoom (l : QgsVectorTileLayer) : Z := mSourceMaxZoom l.
Definition sourceType (l : QgsVectorTileLayer) : string := mSourceType l.
Definition sourcePath (l : QgsVectorTileLayer) : string := mSourcePath l.
Definition isValid (l : QgsVectorTileLayer) : bool := mValid l.
Definition crs (l : QgsVectorTileLayer) : string := mCrs l.

(** [setupArcgisVectorTileServiceConnection( uri )]: the returned flag
    and the layer as the call leaves it. *)
Definition setupArcgisVectorTileServiceConnection
    (l : QgsVectorTileLayer) (uri : string) : bool * QgsVectorTileLayer :=
  let '(code, raw) := blockingGet uri in
  match code with
  | NetworkError | TimeoutError | ServerExceptionError => (false, l)
  | NoError =>
      match fromJson raw with
      | None => (false, l)
      | Some doc =>
          let l := set_mArcgisLayerConfiguration l
                     (QJsonDocument_object_toVariantMap doc) in
          if QVariantMap_contains (mArcgisLayerConfiguration l) "error"
          then (false, l)
          else
            let l := set_mArcgisLayerConfiguration l
                       (<["serviceUri" := VString uri]> (mArcgisLayerConfiguration l)) in
            let l := set_mSourcePath l
                       (uri +:+ "/" +:+
                        QVariant_toString
                          (QList_value
                             (QVariant_toList
                                (QVariantMap_value (mArcgisLayerConfiguration l) "tiles"))
                             0)) in
            if negb (checkXYZUrlTemplate (mSourcePath l))
            then (false, l)
            else
              let l := set_mSourceMinZoom l 0 in
              let l := set_mSourceMaxZoom l
                         (QVariant_toInt
                            (QVariantMap_value (mArcgisLayerConfiguration l) "maxzoom")) in
              let l := setExtent l webMercatorBounds in
              (true, l)
      end
  end.

(** [loadDataSource()]. *)
Definition loadDataSource (l : QgsVectorTileLayer) : bool * QgsVectorTileLayer :=
  let dsUri := setEncodedUri (mDataSource l) in
  let l := set_mSourceType l (param dsUri "type") in
  let l := set_mSourcePath l (param dsUri "url") in
  if (mSourceType l =? "xyz")%string && (param dsUri "serviceType" =? "arcgis")%string
  then
    let '(ok, l) := setupArcgisVectorTileServiceConnection l (mSourcePath l) in
    if negb ok then (false, l)
    else (true, setCrs l "EPSG:3857")
  else if (mSourceType l =? "xyz")%string
  then
    if negb (checkXYZUrlTemplate (mSourcePath l)) then (false, l)
    else
      let l := set_mSourceMinZoom l 0 in
      let l := set_mSourceMaxZoom l 14 in
      let l := if hasParam dsUri "zmin"
               then set_mSourceMinZoom l (toInt (param dsUri "zmin")) else l in
      let l := if hasParam dsUri "zmax"
               then set_mSourceMaxZoom l (toInt (param dsUri "zmax")) else l in
      let l := setExtent l webMercatorBounds in
      (true, setCrs l "EPSG:3857")
  else if (mSourceType l =? "mbtiles")%string
  then
    match mbtiles_open (mSourcePath l) with
    | None => (false, l)
    | Some reader =>
        let format := metadataValue reader "format" in
        if negb (format =? "pbf")%string then (false, l)
        else
          let minZoom := QString_toInt (metadataValue reader "minzoom") in
          let maxZoom := QString_toInt (metadataValue reader "maxzoom") in
          let l := match minZoom with
                   | Some z => set_mSourceMinZoom l z
                   | None => l
                   end in
          let l := match maxZoom with
                   | Some z => set_mSourceMaxZoom l z
                   | None => l
                   end in
          let r := extent reader in
          let r := transformBoundingBox r in
          let l := setExtent l r in
          (true, setCrs l "EPSG:3857")
    end
  else (false, l).

(** The constructor [QgsVectorTileLayer( uri, baseName )]. *)
Definition QgsVectorTileLayer_new (uri baseName : string) : QgsVectorTileLayer :=
  let l := mkLayer (QgsMapLayer_new baseName) false nullRectangle "" uri "" ""
             initialSourceMinZoom initialSourceMaxZoom ∅ None None in
  let '(ok, l) := loadDataSource l in
  let l := setValid l ok in
  let renderer := QgsVectorTileBasicRenderer_new in
  let renderer := setStyles renderer simpleStyleWithRandomColors in
  setRenderer l (Some renderer).

(** [readSymbology( node, errorMessage, context, categories )]: the
    returned flag, the error message as the call leaves it, and the
    layer. *)
Definition readSymbology (l : QgsVectorTileLayer) (node : QDomNode)
    (errorMessage : string) (context : QgsReadWriteContext) (categories : Z)
  : bool * string * QgsVectorTileLayer :=
  let elem := toElement node in
  let l := set_mBase l (readCommonStyle (mBase l) elem context categories) in
  match firstChildElement elem "renderer" with
  | None => (false, tr "Missing <renderer> tag", l)
  | Some elemRenderer =>
      let rendererType := attribute elemRenderer "type" in
      let symbologyStep : option (string * QgsVectorTileLayer) :=
        if testFlag categories Symbology
        then
          if (rendererType =? "basic")%string
          then
            let r := QgsVectorTileBasicRenderer_new in
            let r := renderer_readXml r elemRenderer context in
            Some (errorMessage, setRenderer l (Some r))
          else None
        else Some (errorMessage, l) in
      match symbologyStep with
      | None => (false, tr "Unknown renderer type: " +:+ rendererType, l)
      | Some (errorMessage, l) =>
          if testFlag categories Labeling
          then
            let l := setLabeling l None in
            match firstChildElement elem "labeling" with
            | None => (true, errorMessage, l)
            | Some elemLabeling =>
                let labelingType := attribute elemLabeling "type" in
                if (labelingType =? "basic")%string
                then
                  let labeling := QgsVectorTileBasicLabeling_new in
                  let labeling := labeling_readXml labeling elemLabeling context in
                  (true, errorMessage, setLabeling l (Some labeling))
                else
                  (true, tr "Unknown labeling type: " +:+ rendererType, l)
            end
          else (true, errorMessage, l)
      end
  end.

(** [readXml( layerNode, context )]; [readSymbology] is called with its
    default categories. *)
Definition readXml (l : QgsVectorTileLayer) (layerNode : QDomNode)
    (context : QgsReadWriteContext) : bool * QgsVectorTileLayer :=
  let '(ok, l) := loadDataSource l in
  let l := setValid l ok in
  let '(ok, errorMsg, l) := readSymbology l layerNode "" context AllStyleCategories in
  if negb ok then (false, l)
  else (true, set_mBase l (readStyleManager (mBase l) layerNode)).

(** [encodedSource( source, context )]. *)
Definition encodedSource (source : string) (context : QgsReadWriteContext) : string :=
  let dsUri := setEncodedUri source in
  let sourceType := param dsUri "type" in
  let sourcePath := param dsUri "url" in
  if (sourceType =? "xyz")%string
  then
    let sourceUrl := QUrl_new sourcePath in
    if isLocalFile sourceUrl
    then
      let relSrcUrl := writePath context (toLocalFile sourceUrl) in
      let dsUri := removeParam dsUri "url" in
      let dsUri := setParam dsUri "url" (QUrl_toString (fromLocalFile relSrcUrl)) in
      encodedUri dsUri
    else source
  else if (sourceType =? "mbtiles")%string
  then
    let sourcePath := writePath context sourcePath in
    let dsUri := removeParam dsUri "url" in
    let dsUri := setParam dsUri "url" sourcePath in
    encodedUri dsUri
  else source.

(** [decodedSource( source, provider, context )]. *)
Definition decodedSource (source provider : string) (context : QgsReadWriteContext)
  : string :=
  let dsUri := setEncodedUri source in
  let sourceType := param dsUri "type" in
  let sourcePath := param dsUri "url" in
  if (sourceType =? "xyz")%string
  then
    let sourceUrl := QUrl_new sourcePath in
    if isLocalFile sourceUrl
    then
      let absSrcUrl := readPath context (toLocalFile sourceUrl) in
      let dsUri := removeParam dsUri "url" in
      let dsUri := setParam dsUri "url" (QUrl_toString (fromLocalFile absSrcUrl)) in
      encodedUri dsUri
    else source
  else if (sourceType =? "mbtiles")%string
  then
    let sourcePath := readPath context sourcePath in
    let dsUri := removeParam dsUri "url" in
    let dsUri := setParam dsUri "url" sourcePath in
    encodedUri dsUri
  else source.

(** [getRawTile( tileID )].  The view centre handed to the loader is
    always the default point and is left out. *)
Definition getRawTile (l : QgsVectorTileLayer) (tileID : QgsTileXYZ) : QByteArray :=
  let tileMatrix := fromWebMercator (zoomLevel tileID) in
  let tileRange := mkTileRange (column tileID) (column tileID) (row tileID) (row tileID) in
  let dsUri := setEncodedUri (mDataSource l) in
  let authcfg := authConfigId dsUri in
  let referer := param dsUri "referer" in
  let rawTiles :=
    blockingFetchTileRawData (mSourceType l) (mSourcePath l) tileMatrix tileRange
      authcfg referer in
  match rawTiles with
  | [] => []
  | first :: _ => data first
  end.

(** ** Vocabulary of the properties *)

(** The three source kinds, read off the connection string as
    [loadDataSource] does. *)
Definition isArcgisSource (uri : string) : Prop :=
  param (setEncodedUri uri) "type" = "xyz" ∧
  param (setEncodedUri uri) "serviceType" = "arcgis".

Definition isPlainXyzSource (uri : string) : Prop :=
  param (setEncodedUri uri) "type" = "xyz" ∧
  param (setEncodedUri uri) "serviceType" ≠ "arcgis".

Definition isMbtilesSource (uri : string) : Prop :=
  param (setEncodedUri uri) "type" = "mbtiles".

(** The zoom bound a plain xyz source asks for. *)
Definition requestedZoom (uri key : string) (fallback : Z) : Z :=
  if hasParam (setEncodedUri uri) key
  then toInt (param (setEncodedUri uri) key)
  else fallback.

(** The zoom bound an archive declares, with the value to keep when the
    metadata entry does not convert. *)
Definition declaredZoom (reader : QgsMbTiles) (key : string) (prior : Z) : Z :=
  default prior (QString_toInt (metadataValue reader key)).

(** The tile template and the maximum zoom a service document declares. *)
Definition documentTemplate (m : QVariantMap) : string :=
  QVariant_toString (QList_value (QVariant_toList (QVariantMap_value m "tiles")) 0).

Definition documentMaxZoom (m : QVariantMap) : Z :=
  QVariant_toInt (QVariantMap_value m "maxzoom").

(** The [removeParam]/[setParam] pair both source codings apply to the
    parsed URI. *)
Definition withUrl (d : QgsDataSourceUri) (url : string) : QgsDataSourceUri :=
  setParam (removeParam d "url") "url" url.

(** A connection string is in stored form when printing its parsed URI,
    with the [url] parameter set again to its own value, gives the string
    back. *)
Definition storedForm (source : string) : Prop :=
  encodedUri (withUrl (setEncodedUri source) (param (setEncodedUri source) "url"))
    = source.

(** A URI that parsing its printed form gives back. *)
Definition reparses (d : QgsDataSourceUri) : Prop :=
  setEncodedUri (encodedUri d) = d.

End Layer.

(** The laws of the URI container the source codings rely on: a parameter
    removed and set again reads as the value set, the other parameters
    are not touched, and removing it once more forgets the value. *)
Class DataSourceUriLaws `{DataSourceUriOps} : Prop := {
  param_withUrl : ∀ d k v, param (setParam (removeParam d k) k v) k = v;
  param_withUrl_ne : ∀ d k k' v,
    k ≠ k' → param (setParam (removeParam d k) k v) k' = param d k';
  removeParam_withUrl : ∀ d k v,
    removeParam (setParam (removeParam d k) k v) k = removeParam d k
}.

(** ** The rest of the layer's interface *)

(** [QDomDocument::createElement], [QDomElement::setAttribute] and
    [QDomNode::appendChild]; a null element takes no child. *)
Definition createElement (tagName : string) : QDomElement :=
  DomElement tagName ∅ [].

Definition setAttribute (e : QDomElement) (name value : string) : QDomElement :=
  match e with
  | DomElement tagName attrs children => DomElement tagName (<[name := value]> attrs) children
  end.

Definition appendChild (elem : option QDomElement) (child : QDomElement)
  : option QDomElement :=
  match elem with
  | Some (DomElement tagName attrs children) =>
      Some (DomElement tagName attrs (children ++ [child])%list)
  | None => None
  end.

(** The node an element obtained from it by [toElement] stands for, after
    the element was written to: both share the node. *)
Definition nodeOf (node : QDomNode) (elem : option QDomElement) : QDomNode :=
  match elem with
  | Some e => ElementNode e
  | None => node
  end.

(** [QgsAbstractMetadataBase::Link] and [QgsLayerMetadata], with the
    fields [loadDefaultMetadata] sets. *)
Record Link : Type := mkLink {
  linkName : string;
  linkType : string;
  linkUrl : string
}.

Record QgsLayerMetadata : Type := mkMetadata {
  identifier : string;
  parentIdentifier : string;
  metadataType : string;
  title : string;
  rights : list string;
  links : list Link
}.

Definition QgsLayerMetadata_new : QgsLayerMetadata := mkMetadata "" "" "" "" [] [].

Definition setIdentifier (m : QgsLayerMetadata) (v : string) :=
  mkMetadata v (parentIdentifier m) (metadataType m) (title m) (rights m) (links m).

Definition setParentIdentifier (m : QgsLayerMetadata) (v : string) :=
  mkMetadata (identifier m) v (metadataType m) (title m) (rights m) (links m).

Definition setType (m : QgsLayerMetadata) (v : string) :=
  mkMetadata (identifier m) (parentIdentifier m) v (title m) (rights m) (links m).

Definition setTitle (m : QgsLayerMetadata) (v : string) :=
  mkMetadata (identifier m) (parentIdentifier m) (metadataType m) v (rights m) (links m).

Definition setRights (m : QgsLayerMetadata) (v : list string) :=
  mkMetadata (identifier m) (parentIdentifier m) (metadataType m) (title m) v (links m).

Definition addLink (m : QgsLayerMetadata) (v : Link) :=
  mkMetadata (identifier m) (parentIdentifier m) (metadataType m) (title m) (rights m)
    (links m ++ [v])%list.

(** [QgsMapLayer::name()] and [QgsVectorTileRenderer::clone()]. *)
Class CloneOps `{PathResolverOps} `{!StyleOps} `{!MapLayerOps} := {
  QgsMapLayer_name : BaseState → string;
  renderer_clone : QgsVectorTileRenderer → QgsVectorTileRenderer
}.

(** What writing the symbology calls: the type names and [writeXml] of
    the renderer and the labeling, and [writeCommonStyle] and
    [writeStyleManager] of the base class. *)
Class StyleWriteOps `{PathResolverOps} `{!StyleOps} `{!MapLayerOps} := {
  renderer_type : QgsVectorTileRenderer → string;
  renderer_writeXml :
    QgsVectorTileRenderer → QDomElement → QgsReadWriteContext → QDomElement;
  labeling_type : QgsVectorTileLabeling → string;
  labeling_writeXml :
    QgsVectorTileLabeling → QDomElement → QgsReadWriteContext → QDomElement;
  writeCommonStyle :
    BaseState → option QDomElement → QgsReadWriteContext → Z → option QDomElement;
  writeStyleManager : BaseState → QDomNode → QDomNode
}.

(** What the default style and metadata call: the state of a
    [QgsMapBoxGlStyleConverter] after [convert( raw, &context )], with the
    context the layer always sets up (millimeters, 25.4 / 96 per pixel);
    [QgsMapLayer::setMetadata]; and the base class versions of the two
    functions, whose flag and message the layer drops. *)
Class DefaultsOps `{PathResolverOps} `{GeometryOps} `{!StyleOps} `{!MapLayerOps} := {
  converter_success : QByteArray → bool;
  converter_errorMessage : QByteArray → string;
  converter_renderer : QByteArray → option QgsVectorTileRenderer;
  converter_labeling : QByteArray → option QgsVectorTileLabeling;
  setMetadata : BaseState → QgsLayerMetadata → BaseState;
  QgsMapLayer_loadDefaultStyle : QgsVectorTileLayer → QgsVectorTileLayer;
  QgsMapLayer_loadDefaultMetadata : QgsVectorTileLayer → QgsVectorTileLayer
}.

Section LayerInterface.

Context `{QStringOps} `{QUrlOps} `{DataSourceUriOps} `{PathResolverOps}
        `{VectorTileUtilsOps} `{GeometryOps} `{!MbTilesOps} `{NetworkOps}
        `{TileLoaderOps} `{!StyleOps} `{!MapLayerOps}
        `{!CloneOps} `{!StyleWriteOps} `{!DefaultsOps}.

(** [source()]. *)
Definition source (l : QgsVectorTileLayer) : string := mDataSource l.

(** [clone()]. *)
Definition clone (l : QgsVectorTileLayer) : QgsVectorTileLayer :=
  let layer := QgsVectorTileLayer_new (source l) (QgsMapLayer_name (mBase l)) in
  setRenderer layer
    (match renderer l with
     | Some r => Some (renderer_clone r)
     | None => None
     end).

(** [setTransformContext( transformContext )]. *)
Definition setTransformContext (l : QgsVectorTileLayer) : QgsVectorTileLayer := l.

(** [writeSymbology( node, doc, errorMessage, context, categories )]: the
    returned flag and the node as the call leaves it. *)
Definition writeSymbology (l : QgsVectorTileLayer) (node : QDomNode)
    (context : QgsReadWriteContext) (categories : Z) : bool * QDomNode :=
  let elem := toElement node in
  let elem := writeCommonStyle (mBase l) elem context categories in
  let elem :=
    match mRenderer l with
    | Some r =>
        let elemRenderer := createElement "renderer" in
        let elemRenderer := setAttribute elemRenderer "type" (renderer_type r) in
        let elemRenderer :=
          if testFlag categories Symbology
          then renderer_writeXml r elemRenderer context
          else elemRenderer in
        appendChild elem elemRenderer
    | None => elem
    end in
  let elem :=
    match mLabeling l with
    | Some lab =>
        if testFlag categories Labeling
        then
          let elemLabeling := createElement "labeling" in
          let elemLabeling := setAttribute elemLabeling "type" (labeling_type lab) in
          let elemLabeling := labeling_writeXml lab elemLabeling context in
          appendChild elem elemLabeling
        else elem
    | None => elem
    end in
  (true, nodeOf node elem).

(** [writeXml( layerNode, doc, context )]; [writeSymbology] is called with
    its default categories. *)
Definition writeXml (l : QgsVectorTileLayer) (layerNode : QDomNode)
    (context : QgsReadWriteContext) : bool * QDomNode :=
  let mapLayerNode := toElement layerNode in
  let layerNode :=
    nodeOf layerNode
      (match mapLayerNode with
       | Some e => Some (setAttribute e "type" "vector-tile")
       | None => None
       end) in
  let layerNode := writeStyleManager (mBase l) layerNode in
  writeSymbology l layerNode context AllStyleCategories.

(** The test both default loaders make: the resolved type is xyz and the
    connection string names the arcgis service type. *)
Definition isArcgisLayer (l : QgsVectorTileLayer) : bool :=
  (mSourceType l =? "xyz")%string &&
  (param (setEncodedUri (mDataSource l)) "serviceType" =? "arcgis")%string.

(** The URL [loadDefaultStyle] requests. *)
Definition defaultStyleUrl (l : QgsVectorTileLayer) : string :=
  QVariant_toString (QVariantMap_value (mArcgisLayerConfiguration l) "serviceUri")
  +:+ "/" +:+
  QVariant_toString (QVariantMap_value (mArcgisLayerConfiguration l) "defaultStyles").

(** [loadDefaultStyle( resultFlag )]: the returned message, the flag and
    the layer. *)
Definition loadDefaultStyle (l : QgsVectorTileLayer)
  : string * bool * QgsVectorTileLayer :=
  if isArcgisLayer l
  then
    let '(code, raw) := blockingGet (defaultStyleUrl l) in
    match code with
    | NetworkError | TimeoutError | ServerExceptionError =>
        (tr "Error retrieving default style", false, l)
    | NoError =>
        if negb (converter_success raw)
        then (converter_errorMessage raw, false, l)
        else
          let l := setRenderer l (converter_renderer raw) in
          let l := setLabeling l (converter_labeling raw) in
          ("", true, l)
    end
  else ("", true, QgsMapLayer_loadDefaultStyle l).

(** The metadata [loadDefaultMetadata] builds from the kept service
    document. *)
Definition arcgisDefaultMetadata (l : QgsVectorTileLayer) : QgsLayerMetadata :=
  let config := mArcgisLayerConfiguration l in
  let metadata := QgsLayerMetadata_new in
  let metadata :=
    setIdentifier metadata (QVariant_toString (QVariantMap_value config "serviceUri")) in
  let parentIdentifier :=
    QVariant_toString (QVariantMap_value config "serviceItemId") in
  let metadata :=
    if negb (parentIdentifier =? "")%string
    then setParentIdentifier metadata parentIdentifier
    else metadata in
  let metadata := setType metadata "dataset" in
  let metadata := setTitle metadata (QVariant_toString (QVariantMap_value config "name")) in
  let copyright := QVariant_toString (QVariantMap_value config "copyrightText") in
  let metadata :=
    if negb (copyright =? "")%string then setRights metadata [copyright] else metadata in
  addLink metadata
    (mkLink (tr "Source") "WWW:LINK"
       (QVariant_toString (QVariantMap_value config "serviceUri"))).

(** [loadDefaultMetadata( resultFlag )]. *)
Definition loadDefaultMetadata (l : QgsVectorTileLayer)
  : string * bool * QgsVectorTileLayer :=
  if isArcgisLayer l
  then ("", true, set_mBase l (setMetadata (mBase l) (arcgisDefaultMetadata l)))
  else ("", true, QgsMapLayer_loadDefaultMetadata l).

(** The [url] a source coding sets, for the path rewriting it applies
    ([writePath] when encoding, [readPath] when decoding); nothing when
    the connection string passes through. *)
Definition rewrittenUrl (rewritePath : string → string) (source : string)
  : option string :=
  let dsUri := setEncodedUri source in
  if (param dsUri "type" =? "xyz")%string
  then
    if isLocalFile (QUrl_new (param dsUri "url"))
    then Some (QUrl_toString
                 (fromLocalFile (rewritePath (toLocalFile (QUrl_new (param dsUri "url"))))))
    else None
  else if (param dsUri "type" =? "mbtiles")%string
  then Some (rewritePath (param dsUri "url"))
  else None.

(** The <renderer> element [writeSymbology] builds for a renderer. *)
Definition writtenRendererElement (r : QgsVectorTileRenderer)
    (context : QgsReadWriteContext) (categories : Z) : QDomElement :=
  let elemRenderer := createElement "renderer" in
  let elemRenderer := setAttribute elemRenderer "type" (renderer_type r) in
  if testFlag categories Symbology
  then renderer_writeXml r elemRenderer context
  else elemRenderer.

End LayerInterface.

(** ** A reference environment

    Small executable implementations of the collaborator interfaces, on
    which the layer functions run on concrete connection strings. *)

Module Reference.

(** *** Strings *)

Fixpoint string_drop (n : nat) (s : string) : string :=
  match n, s with
  | S n', String _ s' => string_drop n' s'
  | _, _ => s
  end.

Fixpoint contains (needle hay : string) : bool :=
  String.prefix needle hay ||
  match hay with
  | String _ rest => contains needle rest
  | EmptyString => false
  end.

Fixpoint skip_spaces (s : string) : string :=
  match s with
  | String c rest => if Ascii.is_space c then skip_spaces rest else s
  | EmptyString => EmptyString
  end.

Definition trimmed (s : string) : string :=
  String.rev (skip_spaces (String.rev (skip_spaces s))).

Fixpoint parse_digits (s : string) (acc : Z) : option Z :=
  match s with
  | EmptyString => Some acc
  | String c rest =>
      match Ascii.is_nat c with
      | Some d => parse_digits rest (10 * acc + Z.of_nat d)
      | None => None
      end
  end.

(** A decimal integer with an optional sign and at least one digit. *)
Definition parse_decimal (s : string) : option Z :=
  match s with
  | EmptyString => None
  | String "-" (String _ _ as ds) => Z.opp <$> parse_digits ds 0
  | String "+" (String _ _ as ds) => parse_digits ds 0
  | _ => parse_digits s 0
  end.

Definition parse_in_range (bits : Z) (s : string) : option Z :=
  match parse_decimal (trimmed s) with
  | Some z =>
      if (- 2 ^ (bits - 1) <=? z) && (z <? 2 ^ (bits - 1)) then Some z else None
  | None => None
  end.

#[export] Instance qstring : QStringOps := {|
  QString_toInt := parse_in_range 32;
  QString_toLongLong := parse_in_range 64
|}.

(** *** URLs: a [file:] scheme marks a local file *)

#[export] Instance qurl : QUrlOps := {|
  QUrl := string;
  QUrl_new := fun s => s;
  isLocalFile := fun u => String.prefix "file:" u;
  toLocalFile := fun u =>
    if String.prefix "file://" u then string_drop 7 u
    else if String.prefix "file:" u then string_drop 5 u
    else "";
  fromLocalFile := fun f =>
    if (f =? "")%string then ""
    else if String.prefix "/" f then "file://" +:+ f
    else "file:" +:+ f;
  QUrl_toString := fun u => u
|}.

(** *** The URI container: the [key=value] items of the query, in order *)

Fixpoint split_on (sep : ascii) (s : string) (cur : string) : list string :=
  match s with
  | EmptyString => [String.rev cur]
  | String c rest =>
      if Ascii.eqb c sep then String.rev cur :: split_on sep rest EmptyString
      else split_on sep rest (String c cur)
  end.

Fixpoint split_item (s : string) (key : string) : string * string :=
  match s with
  | EmptyString => (String.rev key, EmptyString)
  | String c rest =>
      if Ascii.eqb c "=" then (String.rev key, rest)
      else split_item rest (String c key)
  end.

Definition parse_query (s : string) : list (string * string) :=
  (fun item => split_item item EmptyString) <$>
    List.filter (fun item => negb (item =? "")%string) (split_on "&" s EmptyString).

Fixpoint print_query (items : list (string * string)) : string :=
  match items with
  | [] => ""
  | [(k, v)] => k +:+ "=" +:+ v
  | (k, v) :: rest => k +:+ "=" +:+ v +:+ "&" +:+ print_query rest
  end.

Fixpoint lookup_item (items : list (string * string)) (key : string) : option string :=
  match items with
  | [] => None
  | (k, v) :: rest => if (k =? key)%string then Some v else lookup_item rest key
  end.

Definition remove_items (items : list (string * string)) (key : string)
  : list (string * string) :=
  List.filter (fun kv => negb (fst kv =? key)%string) items.

#[export] Instance dsuri : DataSourceUriOps := {|
  QgsDataSourceUri := list (string * string);
  setEncodedUri := parse_query;
  param := fun d key => default "" (lookup_item d key);
  hasParam := fun d key =>
    match lookup_item d key with
    | Some _ => true
    | None => false
    end;
  removeParam := remove_items;
  setParam := fun d key value => (d ++ [(key, value)])%list;
  encodedUri := print_query;
  authConfigId := fun d => default "" (lookup_item d "authcfg")
|}.

(** *** The path resolver of a project stored in directory [dir]

    Modelled from the spec: [QgsPathResolver] is not part of the file;
    writing rewrites a path inside the project directory to its form
    relative to the project, reading rewrites a relative path back, and
    any other path is left as it is. *)

#[export] Instance resolver : PathResolverOps := {|
  QgsReadWriteContext := string;
  readPath := fun dir p =>
    if String.prefix "./" p then dir +:+ "/" +:+ string_drop 2 p else p;
  writePath := fun dir p =>
    if negb (dir =? "")%string && String.prefix (dir +:+ "/") p
    then "./" +:+ string_drop (S (String.length dir)) p
    else p
|}.

(** *** Tile URL templates

    Modelled from the spec: [QgsVectorTileUtils::checkXYZUrlTemplate] is
    not part of the file; a template is valid when it contains the zoom,
    column and row placeholders. *)
#[export] Instance utils : VectorTileUtilsOps := {|
  checkXYZUrlTemplate := fun url =>
    contains "{x}" url && (contains "{y}" url || contains "{-y}" url) &&
    contains "{z}" url
|}.

(** *** Rectangles, kept symbolic *)

Inductive Rect : Type :=
  | NullRect
  | WebMercatorBounds
  | ArchiveExtent (path : string)
  | ToWebMercator (r : Rect).

#[export] Instance geometry : GeometryOps := {|
  QgsRectangle := Rect;
  nullRectangle := NullRect;
  webMercatorBounds := WebMercatorBounds;
  transformBoundingBox := ToWebMercator
|}.

(** *** MBTiles archives: a file system of metadata tables

    Modelled from the spec: [QgsMbTiles] is not part of the file; an
    archive opens when the file exists, and a metadata value is the
    string stored under the key, empty when there is none. *)

Definition streetsMetadata : gmap string string :=
  {[ "format" := "pbf"; "minzoom" := "2"; "maxzoom" := "10"; "name" := "streets" ]}.

Definition partialMetadata : gmap string string :=
  {[ "format" := "pbf"; "minzoom" := "three"; "maxzoom" := "9" ]}.

Definition reliefMetadata : gmap string string :=
  {[ "format" := "raster"; "minzoom" := "2"; "maxzoom" := "10" ]}.

Definition files : gmap string (gmap string string) :=
  {[ "/data/streets.mbtiles" := streetsMetadata;
     "/data/partial.mbtiles" := partialMetadata;
     "/data/relief.mbtiles" := reliefMetadata ]}.

#[export] Instance mbtiles : MbTilesOps := {|
  QgsMbTiles := string * gmap string string;
  mbtiles_open := fun path => (fun meta => (path, meta)) <$> files !! path;
  metadataValue := fun reader key => default "" (snd reader !! key);
  extent := fun reader => ArchiveExtent (fst reader)
|}.

(** *** The network: three services, and the documents they serve *)

Definition errorDocument : QVariantMap :=
  {[ "error" := VMap {[ "code" := VNum 499 ]} ]}.

Definition bytes_of (s : string) : QByteArray := String.list_byte_of_string s.

#[export] Instance network : NetworkOps := {|
  blockingGet := fun url =>
    if (url =? "https://maps.example.org/VectorTileServer")%string
    then (NoError, bytes_of "service")
    else if (url =? "https://maps.example.org/Restricted")%string
    then (NoError, bytes_of "token required")
    else if (url =? "https://maps.example.org/Page")%string
    then (NoError, bytes_of "<html>")
    else if (url =? "https://slow.example.org/VectorTileServer")%string
    then (TimeoutError, [])
    else (NetworkError, []);
  fromJson := fun raw =>
    let text := String.string_of_list_byte raw in
    if (text =? "service")%string then Some (JsonObject arcgisDocument)
    else if (text =? "token required")%string then Some (JsonObject errorDocument)
    else None
|}.

(** *** The tile loader: one payload byte for every tile of the pyramid
    down to zoom level 14

    Modelled from the spec: [QgsVectorTileLoader] is not part of the
    file; zoom level z has 2^z columns and rows, and a tile outside the
    pyramid gives no result. *)

#[export] Instance loader : TileLoaderOps := {|
  QgsTileMatrix := Z;
  fromWebMercator := fun zoom => zoom;
  blockingFetchTileRawData :=
    fun sourceType sourcePath tileMatrix range authcfg referer =>
      if (0 <=? tileMatrix) && (tileMatrix <=? 14) &&
         (0 <=? startColumn range) && (startColumn range <? 2 ^ tileMatrix) &&
         (0 <=? startRow range) && (startRow range <? 2 ^ tileMatrix)
      then [mkRawData (mkTileXYZ (startColumn range) (startRow range) tileMatrix)
              [Byte.x1a]]
      else []
|}.

(** *** Renderers and labelings: the element they were read from *)

#[export] Instance style : StyleOps := {|
  QgsVectorTileRenderer := bool * option QDomElement;
  QgsVectorTileLabeling := option QDomElement;
  QgsVectorTileBasicStyles := unit;
  QgsVectorTileBasicRenderer_new := (false, None);
  simpleStyleWithRandomColors := tt;
  setStyles := fun r _ => (true, snd r);
  renderer_readXml := fun r elem _ => (fst r, Some elem);
  QgsVectorTileBasicLabeling_new := None;
  labeling_readXml := fun _ elem _ => Some elem
|}.

(** *** The base class: style category bits as [QgsMapLayer] numbers them *)

#[export] Instance maplayer : MapLayerOps := {|
  Symbology := Z.shiftl 1 1;
  Labeling := Z.shiftl 1 3;
  AllStyleCategories := Z.ones 15;
  initialSourceMinZoom := -1;
  initialSourceMaxZoom := -1;
  BaseState := string;
  QgsMapLayer_new := fun baseName => baseName;
  readCommonStyle := fun base _ _ _ => base;
  readStyleManager := fun base _ => base;
  tr := fun s => s
|}.

(** *** Sample connection strings and documents *)

(** The context of a project stored in [/proj]. *)
Definition project : QgsReadWriteContext := "/proj".

Definition xyzSource : string :=
  "type=xyz&url=https://tiles.example.org/{z}/{x}/{y}.pbf&zmin=2&zmax=10".

Definition xyzDefaultSource : string :=
  "type=xyz&url=https://tiles.example.org/{z}/{x}/{y}.pbf".

Definition xyzReversedSource : string :=
  "type=xyz&url=https://tiles.example.org/{z}/{x}/{y}.pbf&zmin=5&zmax=3".

Definition arcgisSource : string :=
  "type=xyz&url=https://maps.example.org/VectorTileServer&serviceType=arcgis".

Definition streetsSource : string := "type=mbtiles&url=/data/streets.mbtiles".
Definition partialSource : string := "type=mbtiles&url=/data/partial.mbtiles".
Definition reliefSource : string := "type=mbtiles&url=/data/relief.mbtiles".

Definition storedMbtilesSource : string := "type=mbtiles&url=./a.mbtiles".
Definition absoluteMbtilesSource : string := "type=mbtiles&url=/proj/a.mbtiles".

(** A layer element with a <renderer> and a <labeling> child of the
    given types. *)
Definition rendererElement (rendererType : string) : QDomElement :=
  DomElement "renderer" {[ "type" := rendererType ]} [].

Definition labelingElement (labelingType : string) : QDomElement :=
  DomElement "labeling" {[ "type" := labelingType ]} [].

Definition layerElement (rendererType labelingType : string) : QDomNode :=
  ElementNode
    (DomElement "maplayer" ∅
       [rendererElement rendererType; labelingElement labelingType]).

(** *** Cloning, writing and the defaults *)

#[export] Instance cloning : CloneOps := {|
  QgsMapLayer_name := fun base => base;
  renderer_clone := fun r => r
|}.

#[export] Instance writing : StyleWriteOps := {|
  renderer_type := fun _ => "basic";
  renderer_writeXml := fun r elem _ =>
    setAttribute elem "styles" (if fst r then "random" else "none");
  labeling_type := fun _ => "basic";
  labeling_writeXml := fun _ elem _ => elem;
  writeCommonStyle := fun _ elem _ _ => appendChild elem (createElement "blendMode");
  writeStyleManager := fun _ node => node
|}.

#[export] Instance defaults : DefaultsOps := {|
  converter_success := fun raw =>
    (String.string_of_list_byte raw =? "style")%string;
  converter_errorMessage := fun raw =>
    if (String.string_of_list_byte raw =? "style")%string then ""
    else "Could not read style";
  converter_renderer := fun raw =>
    if (String.string_of_list_byte raw =? "style")%string
    then Some (true, None) else None;
  converter_labeling := fun raw =>
    if (String.string_of_list_byte raw =? "style")%string
    then Some None else None;
  setMetadata := fun base _ => base;
  QgsMapLayer_loadDefaultStyle := fun l => l;
  QgsMapLayer_loadDefaultMetadata := fun l => l
|}.

(** *** A second network, with a service that describes itself

    The document of the World service has a style, a name, a copyright
    text, an item id and a "serviceUri" entry of its own, and no
    "maxzoom"; the Bare service answers with an empty object. *)

Definition worldDocument : QVariantMap :=
  {[ "tiles" := VList [VString "tile/{z}/{y}/{x}.pbf"];
     "defaultStyles" := VString "resources/styles";
     "name" := VString "World Basemap";
     "copyrightText" := VString "Esri";
     "serviceItemId" := VString "7a2f";
     "serviceUri" := VString "https://elsewhere.example.org" ]}.

Definition worldNetwork : NetworkOps := {|
  blockingGet := fun url =>
    if (url =? "https://maps.example.org/World")%string
    then (NoError, bytes_of "world")
    else if (url =? "https://maps.example.org/World/resources/styles")%string
    then (NoError, bytes_of "style")
    else if (url =? "https://maps.example.org/Bare")%string
    then (NoError, bytes_of "bare")
    else (NetworkError, []);
  fromJson := fun raw =>
    let text := String.string_of_list_byte raw in
    if (text =? "world")%string then Some (JsonObject worldDocument)
    else if (text =? "bare")%string then Some (JsonObject ∅)
    else None
|}.

Definition worldSource : string :=
  "type=xyz&url=https://maps.example.org/World&serviceType=arcgis".

Definition bareSource : string :=
  "type=xyz&url=https://maps.example.org/Bare&serviceType=arcgis".

Definition slowSource : string :=
  "type=xyz&url=https://slow.example.org/VectorTileServer&serviceType=arcgis".

Definition xyzMalformedSource : string :=
  "type=xyz&url=https://tiles.example.org/{z}/{x}/{y}.pbf&zmin=low&zmax=high".

Definition absoluteLocalXyzSource : string :=
  "type=xyz&url=file:///proj/tiles/{z}/{x}/{y}.pbf".

(** An empty layer element. *)
Definition emptyLayerElement : QDomNode := ElementNode (DomElement "maplayer" ∅ []).

End Reference.

(** * Properties *)

Section Resolution.

Context `{QStringOps} `{QUrlOps} `{DataSourceUriOps} `{PathResolverOps}
        `{VectorTileUtilsOps} `{GeometryOps} `{!MbTilesOps} `{NetworkOps}
        `{TileLoaderOps} `{!StyleOps} `{!MapLayerOps}.

Implicit Types l : QgsVectorTileLayer.

Lemma loadDataSource_plain_xyz l :
  isPlainXyzSource (mDataSource l) →
  checkXYZUrlTemplate (param (setEncodedUri (mDataSource l)) "url") = true →
  ∃ l', loadDataSource l = (true, l') ∧
        mSourceMinZoom l' = requestedZoom (mDataSource l) "zmin" 0 ∧
        mSourceMaxZoom l' = requestedZoom (mDataSource l) "zmax" 14 ∧
        mCrs l' = "EPSG:3857".
Proof.
  intros [Hty Hsvc] Hok. unfold loadDataSource, requestedZoom. simpl.
  rewrite Hty. simpl.
  destruct (String.eqb_spec (param (setEncodedUri (mDataSource l)) "serviceType") "arcgis")
    as [?|_]; [done|].
  rewrite Hok. simpl.
  eexists. split; [reflexivity|].
  destruct (hasParam (setEncodedUri (mDataSource l)) "zmin"),
           (hasParam (setEncodedUri (mDataSource l)) "zmax"); repeat split.
Qed.

Lemma loadDataSource_mbtiles l reader :
  isMbtilesSource (mDataSource l) →
  mbtiles_open (param (setEncodedUri (mDataSource l)) "url") = Some reader →
  loadDataSource l =
    if (metadataValue reader "format" =? "pbf")%string
    then (true,
          setCrs
            (setExtent
               (set_mSourceMaxZoom
                  (set_mSourceMinZoom
                     (set_mSourcePath
                        (set_mSourceType l "mbtiles")
                        (param (setEncodedUri (mDataSource l)) "url"))
                     (declaredZoom reader "minzoom" (mSourceMinZoom l)))
                  (declaredZoom reader "maxzoom" (mSourceMaxZoom l)))
               (transformBoundingBox (extent reader)))
            "EPSG:3857")
    else (false,
          set_mSourcePath (set_mSourceType l "mbtiles")
            (param (setEncodedUri (mDataSource l)) "url")).
Proof.
  unfold isMbtilesSource. intros Hty Hopen. unfold loadDataSource, declaredZoom.
  simpl. rewrite Hty. simpl. rewrite Hopen.
  destruct (metadataValue reader "format" =? "pbf")%string; simpl; [|done].
  destruct (QString_toInt (metadataValue reader "minzoom")),
           (QString_toInt (metadataValue reader "maxzoom")); done.
Qed.

(** C2.  A plain xyz connection string (type xyz, service type not
    arcgis) whose URL template passes [checkXYZUrlTemplate] resolves
    successfully; the minimum zoom is the integer value of the [zmin]
    parameter when that parameter is present and 0 otherwise, the maximum
    zoom the integer value of [zmax] when present and 14 otherwise. *)
Theorem plain_xyz_zoom_range l :
  isPlainXyzSource (mDataSource l) →
  checkXYZUrlTemplate (param (setEncodedUri (mDataSource l)) "url") = true →
  ∃ l', loadDataSource l = (true, l') ∧
        sourceMinZoom l' =
          (if hasParam (setEncodedUri (mDataSource l)) "zmin"
           then toInt (param (setEncodedUri (mDataSource l)) "zmin") else 0) ∧
        sourceMaxZoom l' =
          (if hasParam (setEncodedUri (mDataSource l)) "zmax"
           then toInt (param (setEncodedUri (mDataSource l)) "zmax") else 14).
Proof.
  intros Hkind Hok.
  destruct (loadDataSource_plain_xyz l Hkind Hok) as (l' & Hl & Hmin & Hmax & _).
  exists l'. by rewrite Hl.
Qed.

(** C4.  An mbtiles connection string whose archive opens and whose
    format metadata value is not exactly "pbf" does not resolve:
    [loadDataSource] returns false, and a layer constructed from the
    string is invalid. *)
Theorem mbtiles_format_not_pbf_fails uri baseName reader :
  isMbtilesSource uri →
  mbtiles_open (param (setEncodedUri uri) "url") = Some reader →
  metadataValue reader "format" ≠ "pbf" →
  (∀ l, mDataSource l = uri → (loadDataSource l).1 = false) ∧
  isValid (QgsVectorTileLayer_new uri baseName) = false.
Proof.
  intros Hkind Hopen Hformat.
  assert (Hload : ∀ l, mDataSource l = uri → (loadDataSource l).1 = false).
  { intros l <-. rewrite (loadDataSource_mbtiles l reader Hkind Hopen).
    by destruct (String.eqb_spec (metadataValue reader "format") "pbf"). }
  split; [exact Hload|].
  unfold QgsVectorTileLayer_new.
  match goal with
  | |- context [loadDataSource ?l0] =>
      specialize (Hload l0 eq_refl); destruct (loadDataSource l0) as [ok l1]
  end.
  simpl in Hload. by subst ok.
Qed.

(** C8.  Whenever [loadDataSource] returns true, whatever the source
    kind, the layer's CRS is EPSG:3857. *)
Theorem resolved_crs_is_web_mercator l l' :
  loadDataSource l = (true, l') → crs l' = "EPSG:3857".
Proof.
  unfold loadDataSource. intros Hload.
  repeat case_match; simplify_eq; reflexivity.
Qed.

(** C9.  For an mbtiles archive that opens and whose format is "pbf",
    resolution succeeds; the minimum zoom is the archive's [minzoom]
    metadata value when it converts to an integer and the value the
    member held before otherwise, and independently the same for the
    maximum zoom and [maxzoom]. *)
Theorem mbtiles_zoom_from_metadata l reader :
  isMbtilesSource (mDataSource l) →
  mbtiles_open (param (setEncodedUri (mDataSource l)) "url") = Some reader →
  metadataValue reader "format" = "pbf" →
  ∃ l', loadDataSource l = (true, l') ∧
        sourceMinZoom l' =
          match QString_toInt (metadataValue reader "minzoom") with
          | Some z => z
          | None => sourceMinZoom l
          end ∧
        sourceMaxZoom l' =
          match QString_toInt (metadataValue reader "maxzoom") with
          | Some z => z
          | None => sourceMaxZoom l
          end.
Proof.
  intros Hkind Hopen Hformat.
  rewrite (loadDataSource_mbtiles l reader Hkind Hopen), Hformat. simpl.
  eexists. split; [reflexivity|]. unfold declaredZoom, sourceMinZoom, sourceMaxZoom.
  simpl. by destruct (QString_toInt (metadataValue reader "minzoom")),
                     (QString_toInt (metadataValue reader "maxzoom")).
Qed.

(** C10.  A layer constructed from any connection string has a renderer,
    the basic renderer with the default styles, also when resolution
    fails and the layer is invalid. *)
Theorem constructed_layer_has_renderer uri baseName :
  renderer (QgsVectorTileLayer_new uri baseName) =
    Some (setStyles QgsVectorTileBasicRenderer_new simpleStyleWithRandomColors) ∧
  is_Some (renderer (QgsVectorTileLayer_new uri baseName)).
Proof.
  unfold QgsVectorTileLayer_new.
  match goal with
  | |- context [loadDataSource ?l0] => destruct (loadDataSource l0) as [ok l1]
  end.
  split; [reflexivity|by eexists].
Qed.

(** C6.  [getRawTile] is a total function of the layer and the tile
    address: for every address, whatever its zoom level, it returns the
    empty byte array when the loader returns no tile and the payload of
    the first tile otherwise. *)
Theorem getRawTile_first_or_empty l tileID :
  let fetched :=
    blockingFetchTileRawData (mSourceType l) (mSourcePath l)
      (fromWebMercator (zoomLevel tileID))
      (mkTileRange (column tileID) (column tileID) (row tileID) (row tileID))
      (authConfigId (setEncodedUri (mDataSource l)))
      (param (setEncodedUri (mDataSource l)) "referer") in
  (fetched = [] → getRawTile l tileID = []) ∧
  (∀ first rest, fetched = first :: rest → getRawTile l tileID = data first) ∧
  (∃ bytes, getRawTile l tileID = bytes).
Proof.
  intros fetched. unfold getRawTile. fold fetched.
  split; [|split].
  - by intros ->.
  - by intros first rest ->.
  - by eexists.
Qed.

Lemma setupArcgis_fetch_failed l uri :
  (blockingGet uri).1 ≠ NoError →
  setupArcgisVectorTileServiceConnection l uri = (false, l).
Proof.
  unfold setupArcgisVectorTileServiceConnection.
  destruct (blockingGet uri) as [[] raw]; simpl; done.
Qed.

Lemma setupArcgis_not_parsed l uri raw :
  blockingGet uri = (NoError, raw) → fromJson raw = None →
  setupArcgisVectorTileServiceConnection l uri = (false, l).
Proof.
  unfold setupArcgisVectorTileServiceConnection. by intros -> ->.
Qed.

Lemma setupArcgis_error_key l uri raw doc :
  blockingGet uri = (NoError, raw) → fromJson raw = Some doc →
  is_Some (QJsonDocument_object_toVariantMap doc !! "error") →
  setupArcgisVectorTileServiceConnection l uri =
    (false, set_mArcgisLayerConfiguration l (QJsonDocument_object_toVariantMap doc)).
Proof.
  unfold setupArcgisVectorTileServiceConnection. intros -> -> [v Herr]. simpl.
  unfold QVariantMap_contains. by rewrite Herr.
Qed.

Lemma setupArcgis_accepted l uri raw doc :
  blockingGet uri = (NoError, raw) → fromJson raw = Some doc →
  QJsonDocument_object_toVariantMap doc !! "error" = None →
  checkXYZUrlTemplate
    (uri +:+ "/" +:+ documentTemplate (QJsonDocument_object_toVariantMap doc)) = true →
  ∃ l', setupArcgisVectorTileServiceConnection l uri = (true, l') ∧
        mSourceMinZoom l' = 0 ∧
        mSourceMaxZoom l' = documentMaxZoom (QJsonDocument_object_toVariantMap doc) ∧
        mSourcePath l' =
          uri +:+ "/" +:+ documentTemplate (QJsonDocument_object_toVariantMap doc) ∧
        mCrs l' = mCrs l.
Proof.
  unfold setupArcgisVectorTileServiceConnection, documentTemplate, documentMaxZoom.
  intros -> -> Hnoerr. simpl.
  unfold QVariantMap_contains, QVariantMap_value.
  rewrite Hnoerr.
  rewrite !lookup_insert_ne by done.
  intros ->. simpl. by eexists.
Qed.

Lemma loadDataSource_arcgis l :
  isArcgisSource (mDataSource l) →
  loadDataSource l =
    let '(ok, l1) :=
      setupArcgisVectorTileServiceConnection
        (set_mSourcePath (set_mSourceType l "xyz")
           (param (setEncodedUri (mDataSource l)) "url"))
        (param (setEncodedUri (mDataSource l)) "url") in
    if ok then (true, setCrs l1 "EPSG:3857") else (false, l1).
Proof.
  intros [Hty Hsvc]. unfold loadDataSource. simpl. rewrite Hty, Hsvc. simpl.
  by destruct (setupArcgisVectorTileServiceConnection _ _) as [[] l1].
Qed.

(** C5.  For a connection string of type xyz with service type arcgis and
    URL [uri]: when the fetch of [uri] succeeds and its content parses to
    the document with tiles ["{z}/{x}/{y}.pbf"] and maxzoom 16, and the
    resulting template passes [checkXYZUrlTemplate], resolution succeeds
    with minimum zoom 0, maximum zoom 16 and source path [uri], a slash
    and the template.  Resolution fails when the fetch fails, when the
    content does not parse, and when the parsed document has an "error"
    key. *)
Theorem arcgis_service_resolution l uri :
  isArcgisSource (mDataSource l) →
  param (setEncodedUri (mDataSource l)) "url" = uri →
  (∀ raw,
     blockingGet uri = (NoError, raw) →
     fromJson raw = Some (JsonObject arcgisDocument) →
     checkXYZUrlTemplate (uri +:+ "/" +:+ "{z}/{x}/{y}.pbf") = true →
     ∃ l', loadDataSource l = (true, l') ∧
           sourceMinZoom l' = 0 ∧ sourceMaxZoom l' = 16 ∧
           sourcePath l' = uri +:+ "/" +:+ "{z}/{x}/{y}.pbf") ∧
  ((blockingGet uri).1 ≠ NoError → (loadDataSource l).1 = false) ∧
  (∀ raw,
     blockingGet uri = (NoError, raw) → fromJson raw = None →
     (loadDataSource l).1 = false) ∧
  (∀ raw doc,
     blockingGet uri = (NoError, raw) → fromJson raw = Some doc →
     is_Some (QJsonDocument_object_toVariantMap doc !! "error") →
     (loadDataSource l).1 = false).
Proof.
  intros Hkind Hurl. rewrite (loadDataSource_arcgis l Hkind), Hurl.
  repeat split.
  - intros raw Hget Hjson Htemplate.
    destruct (setupArcgis_accepted
                (set_mSourcePath (set_mSourceType l "xyz") uri) uri raw
                (JsonObject arcgisDocument) Hget Hjson)
      as (l1 & -> & Hmin & Hmax & Hpath & _); [done|exact Htemplate|].
    eexists. split; [reflexivity|].
    unfold sourceMinZoom, sourceMaxZoom, sourcePath. simpl.
    by rewrite Hmin, Hmax, Hpath.
  - intros Hfail. by rewrite setupArcgis_fetch_failed.
  - intros raw Hget Hjson. by rewrite (setupArcgis_not_parsed _ _ raw).
  - intros raw doc Hget Hjson Herr.
    by rewrite (setupArcgis_error_key _ _ raw doc).
Qed.

Lemma setupArcgis_zoom l uri l' :
  setupArcgisVectorTileServiceConnection l uri = (true, l') →
  mSourceMinZoom l' = 0 ∧
  mSourceMaxZoom l' = documentMaxZoom (mArcgisLayerConfiguration l').
Proof.
  unfold setupArcgisVectorTileServiceConnection, documentMaxZoom. intros Hsetup.
  repeat case_match; simplify_eq; done.
Qed.

(** C3, as the code has it.  [loadDataSource] takes the zoom bounds as
    they are supplied and does not compare them: after a successful
    resolution the minimum zoom is at most the maximum zoom provided the
    supplied bounds are ordered, that is, for a plain xyz source the
    [zmin] value (0 when absent) is at most the [zmax] value (14 when
    absent), for an ArcGIS service the [maxzoom] of the kept service
    document is not negative, and for an mbtiles archive the declared
    bounds (the previous value for one that does not convert) are
    ordered. *)
Theorem resolved_zoom_range_ordered l l' :
  loadDataSource l = (true, l') →
  (isPlainXyzSource (mDataSource l) →
     requestedZoom (mDataSource l) "zmin" 0 ≤ requestedZoom (mDataSource l) "zmax" 14) →
  (isArcgisSource (mDataSource l) →
     0 ≤ documentMaxZoom (mArcgisLayerConfiguration l')) →
  (isMbtilesSource (mDataSource l) →
     ∀ reader,
       mbtiles_open (param (setEncodedUri (mDataSource l)) "url") = Some reader →
       declaredZoom reader "minzoom" (mSourceMinZoom l)
         ≤ declaredZoom reader "maxzoom" (mSourceMaxZoom l)) →
  sourceMinZoom l' ≤ sourceMaxZoom l'.
Proof.
  intros Hload Hxyz Harcgis Hmbtiles. unfold sourceMinZoom, sourceMaxZoom.
  destruct (String.eqb_spec (param (setEncodedUri (mDataSource l)) "type") "xyz")
    as [Hty|Hty].
  - destruct (String.eqb_spec
                (param (setEncodedUri (mDataSource l)) "serviceType") "arcgis")
      as [Hsvc|Hsvc].
    + rewrite (loadDataSource_arcgis l (conj Hty Hsvc)) in Hload.
      destruct (setupArcgisVectorTileServiceConnection _ _) as [[] l1] eqn:Hsetup;
        [|done].
      apply setupArcgis_zoom in Hsetup as [Hmin Hmax].
      specialize (Harcgis (conj Hty Hsvc)). simplify_eq. simpl in *. lia.
    + destruct (checkXYZUrlTemplate (param (setEncodedUri (mDataSource l)) "url"))
        eqn:Hok.
      * destruct (loadDataSource_plain_xyz l (conj Hty Hsvc) Hok)
          as (l2 & Hl2 & Hmin & Hmax & _).
        specialize (Hxyz (conj Hty Hsvc)). rewrite Hl2 in Hload. simplify_eq. lia.
      * unfold loadDataSource in Hload. simpl in Hload.
        rewrite Hty in Hload. simpl in Hload.
        destruct (String.eqb_spec
                    (param (setEncodedUri (mDataSource l)) "serviceType") "arcgis");
          [done|].
        rewrite Hok in Hload. done.
  - destruct (String.eqb_spec (param (setEncodedUri (mDataSource l)) "type") "mbtiles")
      as [Hmb|Hmb].
    + destruct (mbtiles_open (param (setEncodedUri (mDataSource l)) "url"))
        as [reader|] eqn:Hopen.
      * rewrite (loadDataSource_mbtiles l reader Hmb Hopen) in Hload.
        specialize (Hmbtiles Hmb reader eq_refl).
        destruct (metadataValue reader "format" =? "pbf")%string; [|done].
        simplify_eq. exact Hmbtiles.
      * unfold loadDataSource in Hload. simpl in Hload.
        rewrite Hmb, Hopen in Hload. done.
    + unfold loadDataSource in Hload. simpl in Hload.
      destruct (String.eqb_spec (param (setEncodedUri (mDataSource l)) "type") "xyz");
        [done|].
      destruct (String.eqb_spec (param (setEncodedUri (mDataSource l)) "type") "mbtiles");
        done.
Qed.

End Resolution.

Section Symbology.

Context `{PathResolverOps} `{GeometryOps} `{!StyleOps} `{!MapLayerOps}.

Implicit Types l : QgsVectorTileLayer.

Lemma readSymbology_renderer_rejected l node errorMessage context categories elemRenderer :
  firstChildElement (toElement node) "renderer" = Some elemRenderer →
  testFlag categories Symbology = true →
  attribute elemRenderer "type" ≠ "basic" →
  (readSymbology l node errorMessage context categories).1.1 = false.
Proof.
  intros Helem Hflag Htype. unfold readSymbology. rewrite Helem, Hflag.
  by destruct (String.eqb_spec (attribute elemRenderer "type") "basic").
Qed.

Lemma readSymbology_labeling_ignored
    l node errorMessage context categories elemRenderer elemLabeling :
  firstChildElement (toElement node) "renderer" = Some elemRenderer →
  testFlag categories Labeling = true →
  (testFlag categories Symbology = true → attribute elemRenderer "type" = "basic") →
  firstChildElement (toElement node) "labeling" = Some elemLabeling →
  attribute elemLabeling "type" ≠ "basic" →
  ∃ message l',
    readSymbology l node errorMessage context categories = (true, message, l') ∧
    labeling l' = None.
Proof.
  intros Helem Hflag Hrenderer Hlab Htype. unfold readSymbology.
  rewrite Helem, Hflag, Hlab.
  destruct (String.eqb_spec (attribute elemLabeling "type") "basic"); [done|].
  destruct (testFlag categories Symbology).
  - rewrite Hrenderer by done. simpl. by eexists _, _.
  - by eexists _, _.
Qed.

(** C7, as the code has it.  With a <renderer> element present:
    when the Symbology category is among the categories read, a renderer
    type other than "basic" makes [readSymbology] return false; when the
    Labeling category is among them and the renderer step passes, a
    <labeling> element of a type other than "basic" is ignored, the read
    returns true and the layer has no labeling.  A category that is not
    read is skipped, each on its own: without the Symbology category the
    renderer type is not looked at, the read returns true and the layer
    keeps the renderer it had, whether or not the labeling is read;
    without the Labeling category the layer keeps the labeling it had,
    whether or not the symbology is read and whatever the read returns;
    and when neither is read the error message stays as well. *)
Theorem readSymbology_unknown_types l node errorMessage context categories elemRenderer :
  firstChildElement (toElement node) "renderer" = Some elemRenderer →
  (testFlag categories Symbology = true →
   attribute elemRenderer "type" ≠ "basic" →
   (readSymbology l node errorMessage context categories).1.1 = false) ∧
  (testFlag categories Labeling = true →
   (testFlag categories Symbology = true → attribute elemRenderer "type" = "basic") →
   ∀ elemLabeling,
     firstChildElement (toElement node) "labeling" = Some elemLabeling →
     attribute elemLabeling "type" ≠ "basic" →
     ∃ message l',
       readSymbology l node errorMessage context categories = (true, message, l') ∧
       labeling l' = None) ∧
  (testFlag categories Symbology = false →
   ∃ message l',
     readSymbology l node errorMessage context categories = (true, message, l') ∧
     renderer l' = renderer l) ∧
  (testFlag categories Labeling = false →
   labeling (readSymbology l node errorMessage context categories).2 = labeling l) ∧
  (testFlag categories Symbology = false →
   testFlag categories Labeling = false →
   ∃ l',
     readSymbology l node errorMessage context categories = (true, errorMessage, l') ∧
     renderer l' = renderer l ∧ labeling l' = labeling l).
Proof.
  intros Helem. repeat apply conj.
  - by apply readSymbology_renderer_rejected.
  - intros Hflag Hrenderer elemLabeling Hlab Htype.
    by apply (readSymbology_labeling_ignored _ _ _ _ _ elemRenderer elemLabeling).
  - intros Hsym. unfold readSymbology. rewrite Helem, Hsym.
    destruct (testFlag categories Labeling); [|by eexists _, _].
    destruct (firstChildElement (toElement node) "labeling") as [elemLabeling|];
      [|by eexists _, _].
    destruct (attribute elemLabeling "type" =? "basic")%string; by eexists _, _.
  - intros Hlab. unfold readSymbology. rewrite Helem, Hlab.
    destruct (testFlag categories Symbology); [|done].
    by destruct (attribute elemRenderer "type" =? "basic")%string.
  - intros Hsym Hlab. unfold readSymbology. rewrite Helem, Hsym, Hlab.
    by eexists.
Qed.

End Symbology.

Section SourceCoding.

Context `{QUrlOps} `{DataSourceUriOps} `{!DataSourceUriLaws} `{PathResolverOps}.

Lemma decodedSource_mbtiles source provider context :
  param (setEncodedUri source) "type" = "mbtiles" →
  decodedSource source provider context =
    encodedUri (withUrl (setEncodedUri source)
                  (readPath context (param (setEncodedUri source) "url"))).
Proof. unfold decodedSource. by intros ->. Qed.

Lemma encodedSource_mbtiles source context :
  param (setEncodedUri source) "type" = "mbtiles" →
  encodedSource source context =
    encodedUri (withUrl (setEncodedUri source)
                  (writePath context (param (setEncodedUri source) "url"))).
Proof. unfold encodedSource. by intros ->. Qed.

Lemma decodedSource_local_xyz source provider context :
  param (setEncodedUri source) "type" = "xyz" →
  isLocalFile (QUrl_new (param (setEncodedUri source) "url")) = true →
  decodedSource source provider context =
    encodedUri
      (withUrl (setEncodedUri source)
         (QUrl_toString
            (fromLocalFile
               (readPath context
                  (toLocalFile (QUrl_new (param (setEncodedUri source) "url"))))))).
Proof. unfold decodedSource. by intros -> ->. Qed.

Lemma encodedSource_local_xyz source context :
  param (setEncodedUri source) "type" = "xyz" →
  isLocalFile (QUrl_new (param (setEncodedUri source) "url")) = true →
  encodedSource source context =
    encodedUri
      (withUrl (setEncodedUri source)
         (QUrl_toString
            (fromLocalFile
               (writePath context
                  (toLocalFile (QUrl_new (param (setEncodedUri source) "url"))))))).
Proof. unfold encodedSource. by intros -> ->. Qed.

Lemma withUrl_withUrl d url url' : withUrl (withUrl d url) url' = withUrl d url'.
Proof. unfold withUrl. by rewrite removeParam_withUrl. Qed.

Lemma param_url_withUrl d url : param (withUrl d url) "url" = url.
Proof. apply param_withUrl. Qed.

Lemma param_type_withUrl d url : param (withUrl d url) "type" = param d "type".
Proof. by apply param_withUrl_ne. Qed.



End SourceCoding.

(** ** Resolution: outcomes, what a failure keeps, repetition *)

Section ResolutionOutcome.

Context `{QStringOps} `{QUrlOps} `{DataSourceUriOps} `{PathResolverOps}
        `{VectorTileUtilsOps} `{GeometryOps} `{!MbTilesOps} `{NetworkOps}
        `{TileLoaderOps} `{!StyleOps} `{!MapLayerOps}.

Implicit Types l : QgsVectorTileLayer.

(** The members no path of the ArcGIS setup writes. *)
Lemma setupArcgis_keeps l uri :
  let l' := (setupArcgisVectorTileServiceConnection l uri).2 in
  mBase l' = mBase l ∧ mValid l' = mValid l ∧ mCrs l' = mCrs l ∧
  mDataSource l' = mDataSource l ∧ mSourceType l' = mSourceType l ∧
  mRenderer l' = mRenderer l ∧ mLabeling l' = mLabeling l.
Proof.
  unfold setupArcgisVectorTileServiceConnection.
  repeat case_match; simpl; done.
Qed.

Lemma setupArcgis_failed_keeps l uri l' :
  setupArcgisVectorTileServiceConnection l uri = (false, l') →
  mSourceMinZoom l' = mSourceMinZoom l ∧ mSourceMaxZoom l' = mSourceMaxZoom l ∧
  mExtent l' = mExtent l.
Proof.
  unfold setupArcgisVectorTileServiceConnection. intros Hsetup.
  repeat case_match; simplify_eq; done.
Qed.

(** The members no path of the resolution writes. *)
Lemma loadDataSource_keeps l :
  let l' := (loadDataSource l).2 in
  mBase l' = mBase l ∧ mValid l' = mValid l ∧ mDataSource l' = mDataSource l ∧
  mRenderer l' = mRenderer l ∧ mLabeling l' = mLabeling l ∧
  mSourceType l' = param (setEncodedUri (mDataSource l)) "type".
Proof.
  unfold loadDataSource.
  destruct ((_ =? "xyz")%string && _) eqn:Harcgis.
  - match goal with
    | |- context [setupArcgisVectorTileServiceConnection ?l0 ?u] =>
        pose proof (setupArcgis_keeps l0 u) as Hkeeps;
        destruct (setupArcgisVectorTileServiceConnection l0 u) as [[] l1]
    end; simpl in Hkeeps; simpl;
      destruct Hkeeps as (-> & -> & ? & -> & -> & -> & ->); done.
  - repeat case_match; simpl; done.
Qed.

(** What a failed resolution leaves as it was. *)
Lemma loadDataSource_failed_keeps l l' :
  loadDataSource l = (false, l') →
  mSourceMinZoom l' = mSourceMinZoom l ∧ mSourceMaxZoom l' = mSourceMaxZoom l ∧
  mExtent l' = mExtent l ∧ mCrs l' = mCrs l.
Proof.
  unfold loadDataSource. intros Hload.
  destruct ((_ =? "xyz")%string && _) eqn:Harcgis.
  - match type of Hload with
    | context [setupArcgisVectorTileServiceConnection ?l0 ?u] =>
        pose proof (setupArcgis_keeps l0 u) as Hkeeps;
        pose proof (setupArcgis_failed_keeps l0 u) as Hfailed;
        destruct (setupArcgisVectorTileServiceConnection l0 u) as [[] l1]
    end; simpl in Hkeeps, Hload; simplify_eq.
    destruct (Hfailed l' eq_refl) as (-> & -> & ->).
    by destruct Hkeeps as (_ & _ & -> & _).
  - repeat case_match; simplify_eq; done.
Qed.

(** When the ArcGIS setup succeeds. *)
Lemma setupArcgis_succeeds_iff l uri :
  (setupArcgisVectorTileServiceConnection l uri).1 = true ↔
  ∃ raw doc,
    blockingGet uri = (NoError, raw) ∧ fromJson raw = Some doc ∧
    QJsonDocument_object_toVariantMap doc !! "error" = None ∧
    checkXYZUrlTemplate
      (uri +:+ "/" +:+ documentTemplate (QJsonDocument_object_toVariantMap doc)) = true.
Proof.
  split.
  - unfold setupArcgisVectorTileServiceConnection, documentTemplate.
    unfold QVariantMap_contains, QVariantMap_value. simpl.
    destruct (blockingGet uri) as [[] raw] eqn:Hget; simpl; try done.
    destruct (fromJson raw) as [doc|] eqn:Hjson; simpl; [|done].
    destruct (QJsonDocument_object_toVariantMap doc !! "error") eqn:Herr; simpl; [done|].
    rewrite !lookup_insert_ne by done.
    destruct (checkXYZUrlTemplate _) eqn:Hok; simpl; [|done].
    intros _. exists raw, doc. by rewrite Hjson, Herr.
  - intros (raw & doc & Hget & Hjson & Herr & Hok).
    by destruct (setupArcgis_accepted l uri raw doc Hget Hjson Herr Hok) as (l' & -> & _).
Qed.

(** X1.  Resolution succeeds in exactly three situations: an ArcGIS
    source whose service document is fetched, parses, has no "error" key
    and gives a template that passes validation; a plain xyz source whose
    URL passes validation; an mbtiles source whose archive opens and
    declares the format "pbf".  Every other connection string, among
    them one whose type is neither xyz nor mbtiles, fails. *)
Theorem resolution_succeeds_iff l :
  let uri := param (setEncodedUri (mDataSource l)) "url" in
  (loadDataSource l).1 = true ↔
    (isArcgisSource (mDataSource l) ∧
     ∃ raw doc,
       blockingGet uri = (NoError, raw) ∧ fromJson raw = Some doc ∧
       QJsonDocument_object_toVariantMap doc !! "error" = None ∧
       checkXYZUrlTemplate
         (uri +:+ "/" +:+ documentTemplate (QJsonDocument_object_toVariantMap doc))
         = true) ∨
    (isPlainXyzSource (mDataSource l) ∧ checkXYZUrlTemplate uri = true) ∨
    (isMbtilesSource (mDataSource l) ∧
     ∃ reader, mbtiles_open uri = Some reader ∧ metadataValue reader "format" = "pbf").
Proof.
  intros uri. unfold isArcgisSource, isPlainXyzSource, isMbtilesSource.
  destruct (String.eqb_spec (param (setEncodedUri (mDataSource l)) "type") "xyz")
    as [Hty|Hty].
  - destruct (String.eqb_spec
                (param (setEncodedUri (mDataSource l)) "serviceType") "arcgis")
      as [Hsvc|Hsvc].
    + rewrite (loadDataSource_arcgis l (conj Hty Hsvc)). fold uri.
      pose proof (setupArcgis_succeeds_iff
                    (set_mSourcePath (set_mSourceType l "xyz") uri) uri) as Hiff.
      destruct (setupArcgisVectorTileServiceConnection _ uri) as [[] l1]; simpl in *.
      * split; [intros _|done]. left. split; [done|]. by apply Hiff.
      * split; [done|]. intros [[_ Hex]|[[[_ ?] _]|[Hmb _]]]; [|done|congruence].
        by apply Hiff in Hex.
    + destruct (checkXYZUrlTemplate uri) eqn:Hok.
      * destruct (loadDataSource_plain_xyz l (conj Hty Hsvc) Hok) as (l' & -> & _).
        split; [intros _|done]. right. left. done.
      * unfold loadDataSource. simpl. rewrite Hty. simpl.
        destruct (String.eqb_spec
                    (param (setEncodedUri (mDataSource l)) "serviceType") "arcgis");
          [done|].
        fold uri. rewrite Hok. simpl.
        split; [done|]. intros [[[_ ?] _]|[[_ ?]|[Hmb _]]]; congruence.
  - destruct (String.eqb_spec (param (setEncodedUri (mDataSource l)) "type") "mbtiles")
      as [Hmb|Hmb].
    + destruct (mbtiles_open uri) as [reader|] eqn:Hopen.
      * rewrite (loadDataSource_mbtiles l reader Hmb Hopen).
        destruct (String.eqb_spec (metadataValue reader "format") "pbf") as [Hf|Hf];
          simpl.
        -- split; [intros _|done]. right. right. split; [done|]. by exists reader.
        -- split; [done|].
           intros [[[? _] _]|[[[? _] _]|[_ (r & Hr & Hformat)]]]; [done|done|].
           congruence.
      * unfold loadDataSource. simpl. rewrite Hmb. simpl. fold uri. rewrite Hopen.
        simpl. split; [done|].
        intros [[[? _] _]|[[[? _] _]|[_ (r & Hr & _)]]]; done.
    + unfold loadDataSource. simpl.
      destruct (String.eqb_spec (param (setEncodedUri (mDataSource l)) "type") "xyz");
        [done|].
      destruct (String.eqb_spec (param (setEncodedUri (mDataSource l)) "type") "mbtiles");
        [done|].
      simpl. split; [done|].
      intros [[[? _] _]|[[[? _] _]|[? _]]]; done.
Qed.

(** X2.  A resolution that fails leaves the zoom range, the extent, the
    CRS, the validity flag, the renderer, the labeling and the connection
    string of the layer as they were; what it does write is the source
    type, which is the type parameter of the connection string. *)
Theorem failed_resolution_keeps l l' :
  loadDataSource l = (false, l') →
  sourceMinZoom l' = sourceMinZoom l ∧ sourceMaxZoom l' = sourceMaxZoom l ∧
  mExtent l' = mExtent l ∧ crs l' = crs l ∧ isValid l' = isValid l ∧
  renderer l' = renderer l ∧ labeling l' = labeling l ∧
  mDataSource l' = mDataSource l ∧
  sourceType l' = param (setEncodedUri (mDataSource l)) "type".
Proof.
  intros Hload.
  destruct (loadDataSource_failed_keeps l l' Hload) as (Hmin & Hmax & Hext & Hcrs).
  pose proof (loadDataSource_keeps l) as Hkeeps. rewrite Hload in Hkeeps.
  simpl in Hkeeps. destruct Hkeeps as (_ & Hvalid & Hsource & Hren & Hlab & Hty).
  unfold sourceMinZoom, sourceMaxZoom, crs, isValid, renderer, labeling, sourceType.
  by rewrite Hmin, Hmax, Hext, Hcrs, Hvalid, Hsource, Hren, Hlab, Hty.
Qed.

(** X3.  Resolving again changes nothing: on the layer a resolution
    leaves, [loadDataSource] returns the same flag and leaves the same
    layer, given the same answers of the network and the file system.
    [readXml] resolves a constructed layer a second time in this way. *)
Theorem resolution_repeated l :
  loadDataSource (loadDataSource l).2 = loadDataSource l.
Proof.
  destruct l as [base valid ext crs0 uri ty path zmin zmax config ren lab].
  unfold loadDataSource. simpl.
  destruct (param (setEncodedUri uri) "type" =? "xyz")%string eqn:Hxyz; simpl.
  - destruct (param (setEncodedUri uri) "serviceType" =? "arcgis")%string eqn:Hsvc; simpl.
    + unfold setupArcgisVectorTileServiceConnection. simpl.
      destruct (blockingGet (param (setEncodedUri uri) "url")) as [[] raw] eqn:Hget;
        simpl; rewrite ?Hxyz, ?Hsvc; simpl; rewrite ?Hget; simpl; try reflexivity.
      destruct (fromJson raw) as [doc|] eqn:Hjson;
        simpl; rewrite ?Hxyz, ?Hsvc; simpl; rewrite ?Hget, ?Hjson; simpl;
        try reflexivity.
      destruct (QVariantMap_contains (QJsonDocument_object_toVariantMap doc) "error")
        eqn:Herr; simpl; rewrite ?Hxyz, ?Hsvc; simpl; rewrite ?Hget, ?Hjson; simpl;
        rewrite ?Herr; simpl; try reflexivity.
      destruct (checkXYZUrlTemplate _) eqn:Hok;
        simpl; rewrite ?Hxyz, ?Hsvc; simpl; rewrite ?Hget, ?Hjson; simpl;
        rewrite ?Herr; simpl; rewrite ?Hok; simpl; reflexivity.
    + destruct (checkXYZUrlTemplate (param (setEncodedUri uri) "url")) eqn:Hok; simpl.
      * destruct (hasParam (setEncodedUri uri) "zmin") eqn:Hzmin,
                 (hasParam (setEncodedUri uri) "zmax") eqn:Hzmax;
          do 3 (simpl; rewrite ?Hxyz, ?Hsvc, ?Hok, ?Hzmin, ?Hzmax); reflexivity.
      * rewrite ?Hxyz, ?Hsvc; simpl; rewrite ?Hok; simpl; reflexivity.
  - destruct (param (setEncodedUri uri) "type" =? "mbtiles")%string eqn:Hmb; simpl.
    + destruct (mbtiles_open (param (setEncodedUri uri) "url")) as [reader|] eqn:Hopen;
        simpl.
      * destruct (metadataValue reader "format" =? "pbf")%string eqn:Hformat; simpl.
        -- destruct (QString_toInt (metadataValue reader "minzoom")) eqn:Hmin,
                    (QString_toInt (metadataValue reader "maxzoom")) eqn:Hmax;
             do 4 (simpl; rewrite ?Hxyz, ?Hmb, ?Hopen, ?Hformat, ?Hmin, ?Hmax);
             reflexivity.
        -- do 3 (simpl; rewrite ?Hxyz, ?Hmb, ?Hopen, ?Hformat); reflexivity.
      * do 3 (simpl; rewrite ?Hxyz, ?Hmb, ?Hopen); reflexivity.
    + rewrite ?Hxyz, ?Hmb; simpl; reflexivity.
Qed.

(** X4.  The extent a successful resolution sets: the full web-mercator
    bounds for both xyz kinds, whatever the connection string asks for,
    and for an mbtiles archive the extent the archive declares,
    transformed from EPSG:4326 to EPSG:3857. *)
Theorem resolved_extent l l' :
  loadDataSource l = (true, l') →
  (param (setEncodedUri (mDataSource l)) "type" = "xyz" →
   mExtent l' = webMercatorBounds) ∧
  (isMbtilesSource (mDataSource l) →
   ∀ reader,
     mbtiles_open (param (setEncodedUri (mDataSource l)) "url") = Some reader →
     mExtent l' = transformBoundingBox (extent reader)).
Proof.
  intros Hload. split.
  - intros Hty.
    destruct (String.eqb_spec
                (param (setEncodedUri (mDataSource l)) "serviceType") "arcgis")
      as [Hsvc|Hsvc].
    + rewrite (loadDataSource_arcgis l (conj Hty Hsvc)) in Hload.
      revert Hload. unfold setupArcgisVectorTileServiceConnection.
      repeat case_match; intros; simplify_eq; done.
    + revert Hload. unfold loadDataSource. simpl. rewrite Hty. simpl.
      destruct (String.eqb_spec
                  (param (setEncodedUri (mDataSource l)) "serviceType") "arcgis");
        [done|].
      repeat case_match; intros; simplify_eq; done.
  - intros Hmb reader Hopen.
    rewrite (loadDataSource_mbtiles l reader Hmb Hopen) in Hload.
    destruct (metadataValue reader "format" =? "pbf")%string; by simplify_eq.
Qed.

(** X5.  What a successful ArcGIS resolution takes from the service
    document, for any document: the source path is the service URL, a
    slash and the first entry of the document's "tiles" list; the zoom
    range is 0 to the document's "maxzoom"; and the layer keeps the
    document with its "serviceUri" entry set to the service URL, also
    when the document has a "serviceUri" entry of its own. *)
Theorem arcgis_resolution_takes_document l raw doc :
  let uri := param (setEncodedUri (mDataSource l)) "url" in
  let m := QJsonDocument_object_toVariantMap doc in
  isArcgisSource (mDataSource l) →
  blockingGet uri = (NoError, raw) →
  fromJson raw = Some doc →
  m !! "error" = None →
  checkXYZUrlTemplate (uri +:+ "/" +:+ documentTemplate m) = true →
  ∃ l', loadDataSource l = (true, l') ∧
        sourcePath l' = uri +:+ "/" +:+ documentTemplate m ∧
        sourceMinZoom l' = 0 ∧ sourceMaxZoom l' = documentMaxZoom m ∧
        mArcgisLayerConfiguration l' = <["serviceUri" := VString uri]> m.
Proof.
  intros uri m Hkind Hget Hjson Herr Hok.
  rewrite (loadDataSource_arcgis l Hkind). fold uri.
  unfold setupArcgisVectorTileServiceConnection, documentTemplate, documentMaxZoom in *.
  rewrite Hget, Hjson. simpl. fold m.
  unfold QVariantMap_contains, QVariantMap_value in *. rewrite Herr.
  rewrite !lookup_insert_ne by done. rewrite Hok. simpl.
  by eexists.
Qed.

(** X6.  Entries the service document lacks.  Without a "maxzoom" entry
    the maximum zoom is 0.  Without a "tiles" entry, or with one that is
    an empty list, the template is empty, the source path is the service
    URL followed by a slash, and the resolution succeeds exactly when
    that path passes validation. *)
Theorem arcgis_document_missing_entries l raw doc :
  let uri := param (setEncodedUri (mDataSource l)) "url" in
  let m := QJsonDocument_object_toVariantMap doc in
  isArcgisSource (mDataSource l) →
  blockingGet uri = (NoError, raw) →
  fromJson raw = Some doc →
  m !! "error" = None →
  (m !! "maxzoom" = None →
   ∀ l', loadDataSource l = (true, l') → sourceMaxZoom l' = 0) ∧
  (m !! "tiles" = None ∨ m !! "tiles" = Some (VList []) →
   (loadDataSource l).1 = checkXYZUrlTemplate (uri +:+ "/") ∧
   sourcePath (loadDataSource l).2 = uri +:+ "/").
Proof.
  intros uri m Hkind Hget Hjson Herr.
  rewrite (loadDataSource_arcgis l Hkind). fold uri.
  unfold setupArcgisVectorTileServiceConnection.
  rewrite Hget, Hjson. simpl. fold m.
  unfold QVariantMap_contains, QVariantMap_value. rewrite Herr.
  rewrite !lookup_insert_ne by done.
  split.
  - intros Hmax l'. rewrite Hmax.
    destruct (checkXYZUrlTemplate _); simpl; intros; by simplify_eq.
  - intros Htiles.
    assert (Htemplate :
              QVariant_toString
                (QList_value (QVariant_toList (default VInvalid (m !! "tiles"))) 0) = "")
      by (by destruct Htiles as [-> | ->]).
    rewrite Htemplate.
    change (uri +:+ "/" +:+ "") with (uri +:+ "/").
    by destruct (checkXYZUrlTemplate (uri +:+ "/")).
Qed.

Lemma loadDataSource_succeeded_crs l l' :
  loadDataSource l = (true, l') → mCrs l' = "EPSG:3857".
Proof.
  unfold loadDataSource. intros Hload.
  repeat case_match; simplify_eq; reflexivity.
Qed.

(** X7.  A constructed layer carries the connection string it was given
    and no labeling; its CRS is EPSG:3857 when it is valid and the
    invalid (empty) CRS when it is not, and an invalid layer has the
    initial zoom bounds and the null extent. *)
Theorem constructed_layer_state uri baseName :
  let l := QgsVectorTileLayer_new uri baseName in
  source l = uri ∧ labeling l = None ∧
  crs l = (if isValid l then "EPSG:3857" else "") ∧
  (isValid l = false →
   sourceMinZoom l = initialSourceMinZoom ∧ sourceMaxZoom l = initialSourceMaxZoom ∧
   mExtent l = nullRectangle).
Proof.
  unfold QgsVectorTileLayer_new, source.
  match goal with
  | |- context [loadDataSource ?l0] =>
      pose proof (loadDataSource_keeps l0) as Hkeeps;
      pose proof (loadDataSource_failed_keeps l0) as Hfailed;
      pose proof (loadDataSource_succeeded_crs l0) as Hcrs;
      destruct (loadDataSource l0) as [ok l1]
  end.
  simpl in Hkeeps. destruct Hkeeps as (_ & _ & Hsource & _ & Hlab & _).
  simpl. split; [exact Hsource|]. split; [exact Hlab|].
  destruct ok.
  - split; [by apply Hcrs|done].
  - destruct (Hfailed l1 eq_refl) as (Hmin & Hmax & Hext & Hc).
    split; [exact Hc|]. intros _. done.
Qed.

(** X25.  A zoom parameter that is present and is not an integer: the
    plain xyz resolution still succeeds and the bound is 0, for [zmax]
    as for [zmin]; the default 14 is only for an absent [zmax]. *)
Theorem plain_xyz_malformed_zoom l :
  isPlainXyzSource (mDataSource l) →
  checkXYZUrlTemplate (param (setEncodedUri (mDataSource l)) "url") = true →
  ∃ l', loadDataSource l = (true, l') ∧
        (hasParam (setEncodedUri (mDataSource l)) "zmin" = true →
         QString_toInt (param (setEncodedUri (mDataSource l)) "zmin") = None →
         sourceMinZoom l' = 0) ∧
        (hasParam (setEncodedUri (mDataSource l)) "zmax" = true →
         QString_toInt (param (setEncodedUri (mDataSource l)) "zmax") = None →
         sourceMaxZoom l' = 0).
Proof.
  intros Hkind Hok.
  destruct (loadDataSource_plain_xyz l Hkind Hok) as (l' & Hload & Hmin & Hmax & _).
  exists l'. split; [exact Hload|].
  unfold sourceMinZoom, sourceMaxZoom, requestedZoom, toInt in *.
  split.
  - intros Hhas Hint. by rewrite Hmin, Hhas, Hint.
  - intros Hhas Hint. by rewrite Hmax, Hhas, Hint.
Qed.

End ResolutionOutcome.

(** ** Reading the symbology and the layer *)

Section SymbologyRead.

Context `{QStringOps} `{QUrlOps} `{DataSourceUriOps} `{PathResolverOps}
        `{VectorTileUtilsOps} `{GeometryOps} `{!MbTilesOps} `{NetworkOps}
        `{TileLoaderOps} `{!StyleOps} `{!MapLayerOps}.

Implicit Types l : QgsVectorTileLayer.

(** The resolved members, which reading the symbology does not write. *)
Lemma readSymbology_keeps_resolution l node errorMessage context categories :
  let l' := (readSymbology l node errorMessage context categories).2 in
  mValid l' = mValid l ∧ mExtent l' = mExtent l ∧ mCrs l' = mCrs l ∧
  mDataSource l' = mDataSource l ∧ mSourceType l' = mSourceType l ∧
  mSourcePath l' = mSourcePath l ∧ mSourceMinZoom l' = mSourceMinZoom l ∧
  mSourceMaxZoom l' = mSourceMaxZoom l ∧
  mArcgisLayerConfiguration l' = mArcgisLayerConfiguration l.
Proof.
  unfold readSymbology. repeat case_match; simplify_eq; simpl; done.
Qed.

Lemma readSymbology_failed_keeps l node errorMessage context categories message l' :
  readSymbology l node errorMessage context categories = (false, message, l') →
  mRenderer l' = mRenderer l ∧ mLabeling l' = mLabeling l.
Proof.
  unfold readSymbology. intros Hread.
  repeat case_match; simplify_eq; simpl; done.
Qed.

(** X8.  The <renderer> element is required whatever is read: when the
    node is not an element or has no <renderer> child, [readSymbology]
    returns false with the message "Missing <renderer> tag" for every
    choice of categories, also one without the Symbology category, and
    the renderer and labeling of the layer stay as they were. *)
Theorem readSymbology_missing_renderer l node errorMessage context categories :
  firstChildElement (toElement node) "renderer" = None →
  ∃ l', readSymbology l node errorMessage context categories
          = (false, tr "Missing <renderer> tag", l') ∧
        renderer l' = renderer l ∧ labeling l' = labeling l.
Proof.
  intros Hnone. unfold readSymbology. rewrite Hnone. by eexists.
Qed.

(** X9.  A read that fails installs nothing, and no read writes the
    resolved members: after every [readSymbology], whatever it returns,
    the source type and path, the zoom range, the extent, the CRS and
    the validity of the layer are the ones it had; and whenever the read
    returns false the layer also has the renderer and the labeling it
    had before. *)
Theorem readSymbology_failure_installs_nothing l node errorMessage context categories :
  let read := readSymbology l node errorMessage context categories in
  (sourceType read.2 = sourceType l ∧ sourcePath read.2 = sourcePath l ∧
   sourceMinZoom read.2 = sourceMinZoom l ∧ sourceMaxZoom read.2 = sourceMaxZoom l ∧
   mExtent read.2 = mExtent l ∧ crs read.2 = crs l ∧ isValid read.2 = isValid l) ∧
  (read.1.1 = false →
   renderer read.2 = renderer l ∧ labeling read.2 = labeling l).
Proof.
  intros read. subst read. split.
  - pose proof (readSymbology_keeps_resolution l node errorMessage context categories)
      as Hkeeps.
    simpl in Hkeeps.
    destruct Hkeeps as (Hvalid & Hext & Hcrs & _ & Hty & Hpath & Hmin & Hmax & _).
    unfold sourceType, sourcePath, sourceMinZoom, sourceMaxZoom, crs, isValid.
    by rewrite Hty, Hpath, Hmin, Hmax, Hext, Hcrs, Hvalid.
  - intros Hfalse.
    destruct (readSymbology l node errorMessage context categories)
      as [[ok message] l'] eqn:Hread.
    simpl in Hfalse. subst ok.
    exact (readSymbology_failed_keeps _ _ _ _ _ _ _ Hread).
Qed.

(** X10.  What a successful read of both categories installs: the
    renderer is a new basic renderer read from the <renderer> element;
    the labeling is a new basic labeling read from the <labeling> element
    when that element exists and has type "basic", and no labeling
    otherwise, whatever labeling the layer had. *)
Theorem readSymbology_installs l node errorMessage context categories elemRenderer :
  firstChildElement (toElement node) "renderer" = Some elemRenderer →
  attribute elemRenderer "type" = "basic" →
  testFlag categories Symbology = true →
  testFlag categories Labeling = true →
  ∃ message l',
    readSymbology l node errorMessage context categories = (true, message, l') ∧
    renderer l' =
      Some (renderer_readXml QgsVectorTileBasicRenderer_new elemRenderer context) ∧
    labeling l' =
      match firstChildElement (toElement node) "labeling" with
      | Some elemLabeling =>
          if (attribute elemLabeling "type" =? "basic")%string
          then Some (labeling_readXml QgsVectorTileBasicLabeling_new elemLabeling context)
          else None
      | None => None
      end.
Proof.
  intros Helem Htype Hsym Hlab. unfold readSymbology.
  rewrite Helem, Htype, Hsym, Hlab. simpl.
  destruct (firstChildElement (toElement node) "labeling") as [elemLabeling|].
  - destruct (attribute elemLabeling "type" =? "basic")%string; by eexists _, _.
  - by eexists _, _.
Qed.

(** X11.  The error message of a read that returns true.  It is the
    message passed in, except when the Labeling category is read and the
    <labeling> element has a type other than "basic": then the read
    still returns true and the message is "Unknown labeling type: "
    followed by the type attribute of the <renderer> element. *)
Theorem readSymbology_message_on_success
    l node errorMessage context categories message l' :
  readSymbology l node errorMessage context categories = (true, message, l') →
  ∃ elemRenderer,
    firstChildElement (toElement node) "renderer" = Some elemRenderer ∧
    message =
      match firstChildElement (toElement node) "labeling" with
      | Some elemLabeling =>
          if testFlag categories Labeling &&
             negb (attribute elemLabeling "type" =? "basic")%string
          then tr "Unknown labeling type: " +:+ attribute elemRenderer "type"
          else errorMessage
      | None => errorMessage
      end.
Proof.
  unfold readSymbology. intros Hread.
  destruct (firstChildElement (toElement node) "renderer") as [elemRenderer|];
    [|done].
  exists elemRenderer. split; [done|].
  destruct (testFlag categories Labeling);
    destruct (firstChildElement (toElement node) "labeling") as [elemLabeling|];
    repeat case_match; simplify_eq; done.
Qed.

(** X12.  [readXml] resolves the source again and reports only on the
    symbology.  The validity of the layer it leaves is the outcome of
    [loadDataSource] and its source type, path and zoom range are the
    resolved ones, whether the read returns true or false.  Its return
    value is the one of [readSymbology], called on the resolved layer
    with the default categories: false when the node has no <renderer>
    element, false when the default categories include Symbology and the
    renderer type is not "basic", true when the type is "basic", also for
    a layer whose source does not resolve.  The style manager is read
    when and only when the symbology was. *)
Theorem readXml_resolves_and_reads l layerNode context :
  let resolved := loadDataSource l in
  let read :=
    readSymbology (setValid resolved.2 resolved.1) layerNode "" context
      AllStyleCategories in
  let l' := (readXml l layerNode context).2 in
  (isValid l' = resolved.1 ∧
   sourceType l' = sourceType resolved.2 ∧ sourcePath l' = sourcePath resolved.2 ∧
   sourceMinZoom l' = sourceMinZoom resolved.2 ∧
   sourceMaxZoom l' = sourceMaxZoom resolved.2) ∧
  (readXml l layerNode context).1 = read.1.1 ∧
  (firstChildElement (toElement layerNode) "renderer" = None →
   (readXml l layerNode context).1 = false) ∧
  (∀ elemRenderer,
     firstChildElement (toElement layerNode) "renderer" = Some elemRenderer →
     (attribute elemRenderer "type" = "basic" →
      (readXml l layerNode context).1 = true) ∧
     (testFlag AllStyleCategories Symbology = true →
      attribute elemRenderer "type" ≠ "basic" →
      (readXml l layerNode context).1 = false)) ∧
  readXml l layerNode context =
    (if read.1.1
     then (true, set_mBase read.2 (readStyleManager (mBase read.2) layerNode))
     else (false, read.2)).
Proof.
  intros resolved read l'. subst resolved read l'. unfold readXml.
  destruct (loadDataSource l) as [ok l1]. simpl.
  pose proof (readSymbology_keeps_resolution (setValid l1 ok) layerNode "" context
                AllStyleCategories) as Hkeeps.
  split; [|split; [|split; [|split]]].
  - destruct (readSymbology (setValid l1 ok) layerNode "" context AllStyleCategories)
      as [[[] message] l2]; simpl in *;
      destruct Hkeeps as (Hvalid & _ & _ & _ & Hty & Hpath & Hmin & Hmax & _);
      unfold isValid, sourceType, sourcePath, sourceMinZoom, sourceMaxZoom; simpl;
      by rewrite Hvalid, Hty, Hpath, Hmin, Hmax.
  - clear Hkeeps.
    by destruct (readSymbology (setValid l1 ok) layerNode "" context AllStyleCategories)
      as [[[] message] l2].
  - intros Hnone. clear Hkeeps. unfold readSymbology. by rewrite Hnone.
  - intros elemRenderer Helem. clear Hkeeps. split.
    + intros Htype. unfold readSymbology. rewrite Helem, Htype. simpl.
      repeat case_match; simplify_eq; done.
    + intros Hsym Htype. unfold readSymbology. rewrite Helem, Hsym.
      by destruct (String.eqb_spec (attribute elemRenderer "type") "basic").
  - clear Hkeeps.
    by destruct (readSymbology (setValid l1 ok) layerNode "" context AllStyleCategories)
      as [[[] message] l2].
Qed.

End SymbologyRead.

(** ** The source codings the other way round *)

Section SourceDecoding.

Context `{QUrlOps} `{DataSourceUriOps} `{!DataSourceUriLaws} `{PathResolverOps}.

(** X13.  Decoding undoes encoding, the direction a connection string
    takes from the layer into a project file and back.  For a string in
    stored form whose encoded form parses back to the URI it was printed
    from: of type mbtiles, when the resolver reads the path it wrote back
    as it was; of type xyz with a local-file URL, when the resolver does
    so for the file of the URL and the URL conversions round-trip on it. *)
Theorem decoding_undoes_encoding source provider context :
  (param (setEncodedUri source) "type" = "mbtiles" →
   storedForm source →
   reparses (withUrl (setEncodedUri source)
               (writePath context (param (setEncodedUri source) "url"))) →
   readPath context (writePath context (param (setEncodedUri source) "url"))
     = param (setEncodedUri source) "url" →
   decodedSource (encodedSource source context) provider context = source) ∧
  (param (setEncodedUri source) "type" = "xyz" →
   isLocalFile (QUrl_new (param (setEncodedUri source) "url")) = true →
   ∀ file relUrl,
     file = toLocalFile (QUrl_new (param (setEncodedUri source) "url")) →
     relUrl = QUrl_toString (fromLocalFile (writePath context file)) →
     storedForm source →
     reparses (withUrl (setEncodedUri source) relUrl) →
     isLocalFile (QUrl_new relUrl) = true →
     toLocalFile (QUrl_new relUrl) = writePath context file →
     readPath context (writePath context file) = file →
     QUrl_toString (fromLocalFile file) = param (setEncodedUri source) "url" →
     decodedSource (encodedSource source context) provider context = source).
Proof.
  split.
  - intros Hty Hstored Hparse Hpath.
    rewrite (encodedSource_mbtiles _ _ Hty).
    rewrite decodedSource_mbtiles; rewrite Hparse.
    + rewrite param_url_withUrl, withUrl_withUrl, Hpath. exact Hstored.
    + by rewrite param_type_withUrl.
  - intros Hty Hlocal file relUrl -> -> Hstored Hparse Hlocal' Hfile Hpath Hurl.
    rewrite (encodedSource_local_xyz _ _ Hty Hlocal).
    rewrite decodedSource_local_xyz; rewrite Hparse.
    + rewrite param_url_withUrl, withUrl_withUrl.
      rewrite Hfile, Hpath, Hurl. exact Hstored.
    + by rewrite param_type_withUrl.
    + by rewrite param_url_withUrl.
Qed.

Lemma encodedSource_rewrites source context :
  encodedSource source context =
    match rewrittenUrl (writePath context) source with
    | Some url => encodedUri (withUrl (setEncodedUri source) url)
    | None => source
    end.
Proof. unfold encodedSource, rewrittenUrl. by repeat case_match. Qed.

Lemma decodedSource_rewrites source provider context :
  decodedSource source provider context =
    match rewrittenUrl (readPath context) source with
    | Some url => encodedUri (withUrl (setEncodedUri source) url)
    | None => source
    end.
Proof. unfold decodedSource, rewrittenUrl. by repeat case_match. Qed.

(** X14.  The codings rewrite the [url] parameter and nothing else.  When
    the URI with the rewritten [url] parses back from its printed form,
    every parameter other than [url], the type among them, reads the
    same in the encoded and in the decoded string as in the string
    itself, and [url] reads as the rewritten URL: for mbtiles the path
    the resolver writes (encoding) or reads (decoding) for it, for a
    local-file xyz URL the local-file URL of that path, and the [url] of
    the string where there is nothing to rewrite. *)
Theorem codings_rewrite_only_url source provider context key :
  (∀ url, rewrittenUrl (writePath context) source = Some url →
          reparses (withUrl (setEncodedUri source) url)) →
  (∀ url, rewrittenUrl (readPath context) source = Some url →
          reparses (withUrl (setEncodedUri source) url)) →
  param (setEncodedUri (encodedSource source context)) key
    = (if (key =? "url")%string
       then default (param (setEncodedUri source) "url")
              (rewrittenUrl (writePath context) source)
       else param (setEncodedUri source) key) ∧
  param (setEncodedUri (decodedSource source provider context)) key
    = (if (key =? "url")%string
       then default (param (setEncodedUri source) "url")
              (rewrittenUrl (readPath context) source)
       else param (setEncodedUri source) key).
Proof.
  intros Hwrite Hread.
  rewrite encodedSource_rewrites, decodedSource_rewrites.
  split.
  - destruct (rewrittenUrl (writePath context) source) as [url|] eqn:Hurl; simpl.
    + rewrite (Hwrite url eq_refl). unfold withUrl.
      destruct (String.eqb_spec key "url") as [->|Hne].
      * apply param_withUrl.
      * by apply param_withUrl_ne.
    + by destruct (String.eqb_spec key "url") as [->|Hne].
  - destruct (rewrittenUrl (readPath context) source) as [url|] eqn:Hurl; simpl.
    + rewrite (Hread url eq_refl). unfold withUrl.
      destruct (String.eqb_spec key "url") as [->|Hne].
      * apply param_withUrl.
      * by apply param_withUrl_ne.
    + by destruct (String.eqb_spec key "url") as [->|Hne].
Qed.

End SourceDecoding.

(** ** Cloning, default style and metadata, writing the symbology *)

Section Interface.

Context `{QStringOps} `{QUrlOps} `{DataSourceUriOps} `{PathResolverOps}
        `{VectorTileUtilsOps} `{GeometryOps} `{!MbTilesOps} `{NetworkOps}
        `{TileLoaderOps} `{!StyleOps} `{!MapLayerOps}
        `{!CloneOps} `{!StyleWriteOps} `{!DefaultsOps}.

Implicit Types l : QgsVectorTileLayer.

(** The layer a successful ArcGIS resolution leaves. *)
Lemma arcgis_resolved_state l raw doc :
  let uri := param (setEncodedUri (mDataSource l)) "url" in
  let m := QJsonDocument_object_toVariantMap doc in
  isArcgisSource (mDataSource l) →
  blockingGet uri = (NoError, raw) →
  fromJson raw = Some doc →
  m !! "error" = None →
  checkXYZUrlTemplate (uri +:+ "/" +:+ documentTemplate m) = true →
  ∃ l', loadDataSource l = (true, l') ∧
        mSourceType l' = "xyz" ∧ mDataSource l' = mDataSource l ∧
        mArcgisLayerConfiguration l' = <["serviceUri" := VString uri]> m.
Proof.
  intros uri m Hkind Hget Hjson Herr Hok.
  rewrite (loadDataSource_arcgis l Hkind). fold uri.
  unfold setupArcgisVectorTileServiceConnection, documentTemplate in *.
  rewrite Hget, Hjson. simpl. fold m.
  unfold QVariantMap_contains, QVariantMap_value in *. rewrite Herr.
  rewrite !lookup_insert_ne by done. rewrite Hok. simpl.
  by eexists.
Qed.

(** The layer a resolution leaves when the fetch of the service fails. *)
Lemma arcgis_unfetched_state l :
  isArcgisSource (mDataSource l) →
  (blockingGet (param (setEncodedUri (mDataSource l)) "url")).1 ≠ NoError →
  loadDataSource l =
    (false,
     set_mSourcePath (set_mSourceType l "xyz")
       (param (setEncodedUri (mDataSource l)) "url")).
Proof.
  intros Hkind Hfail. rewrite (loadDataSource_arcgis l Hkind).
  by rewrite setupArcgis_fetch_failed.
Qed.

(** X15.  A clone has the connection string of the layer and a clone of
    its renderer, no renderer when the layer has none, and never the
    labeling of the layer: the clone has no labeling. *)
Theorem clone_renderer_and_labeling l :
  source (clone l) = source l ∧
  renderer (clone l) =
    match renderer l with
    | Some r => Some (renderer_clone r)
    | None => None
    end ∧
  labeling (clone l) = None.
Proof.
  unfold clone, QgsVectorTileLayer_new, source.
  match goal with
  | |- context [loadDataSource ?l0] =>
      pose proof (loadDataSource_keeps l0) as Hkeeps;
      destruct (loadDataSource l0) as [ok l1]
  end.
  simpl in Hkeeps. destruct Hkeeps as (_ & _ & Hsource & _ & Hlab & _).
  simpl. by rewrite Hsource, Hlab.
Qed.

(** X17.  A default style load that reports failure leaves the layer as
    it was.  It fails only for an ArcGIS layer, with the message "Error
    retrieving default style" when the fetch of the style fails and with
    the converter's message when the conversion fails; for every other
    layer it reports success with an empty message. *)
Theorem loadDefaultStyle_failure_keeps_layer l message l' :
  loadDefaultStyle l = (message, false, l') →
  l' = l ∧ isArcgisLayer l = true ∧
  (((blockingGet (defaultStyleUrl l)).1 ≠ NoError ∧
    message = tr "Error retrieving default style") ∨
   (∃ raw, blockingGet (defaultStyleUrl l) = (NoError, raw) ∧
           converter_success raw = false ∧ message = converter_errorMessage raw)).
Proof.
  unfold loadDefaultStyle.
  destruct (isArcgisLayer l); [|done].
  destruct (blockingGet (defaultStyleUrl l)) as [[] raw]; simpl;
    try (intros [= <- <-]; split; [done|]; split; [done|]; by left).
  destruct (converter_success raw) eqn:Hok; simpl; [done|].
  intros [= <- <-]. split; [done|]. split; [done|]. right. by exists raw.
Qed.

(** X18.  A default style load that succeeds for an ArcGIS layer installs
    what the converter made of the fetched style, as renderer and as
    labeling, each possibly none, and writes nothing else: the resolved
    source, zoom range, CRS and validity stay. *)
Theorem loadDefaultStyle_installs_converted_style l message l' :
  isArcgisLayer l = true →
  loadDefaultStyle l = (message, true, l') →
  ∃ raw,
    blockingGet (defaultStyleUrl l) = (NoError, raw) ∧ converter_success raw = true ∧
    message = "" ∧
    renderer l' = converter_renderer raw ∧ labeling l' = converter_labeling raw ∧
    sourceType l' = sourceType l ∧ sourcePath l' = sourcePath l ∧
    sourceMinZoom l' = sourceMinZoom l ∧ sourceMaxZoom l' = sourceMaxZoom l ∧
    crs l' = crs l ∧ isValid l' = isValid l.
Proof.
  unfold loadDefaultStyle. intros ->.
  destruct (blockingGet (defaultStyleUrl l)) as [[] raw]; simpl; try done.
  destruct (converter_success raw) eqn:Hok; simpl; [|done].
  intros [= <- <-]. by exists raw.
Qed.

(** X19.  Where the default style of a resolved ArcGIS layer comes from:
    after a successful resolution with service document [m] the layer
    passes the test of the default loaders, and the style is requested
    from the service URL, a slash and the "defaultStyles" entry of the
    document, wherever a "serviceUri" entry of the document points. *)
Theorem resolved_arcgis_style_url l raw doc :
  let uri := param (setEncodedUri (mDataSource l)) "url" in
  let m := QJsonDocument_object_toVariantMap doc in
  isArcgisSource (mDataSource l) →
  blockingGet uri = (NoError, raw) →
  fromJson raw = Some doc →
  m !! "error" = None →
  checkXYZUrlTemplate (uri +:+ "/" +:+ documentTemplate m) = true →
  ∃ l', loadDataSource l = (true, l') ∧ isArcgisLayer l' = true ∧
        defaultStyleUrl l' =
          uri +:+ "/" +:+ QVariant_toString (QVariantMap_value m "defaultStyles").
Proof.
  intros uri m Hkind Hget Hjson Herr Hok.
  destruct (arcgis_resolved_state l raw doc Hkind Hget Hjson Herr Hok)
    as (l' & Hload & Hty & Hsource & Hconfig).
  exists l'. split; [exact Hload|]. split.
  - unfold isArcgisLayer. rewrite Hty, Hsource. destruct Hkind as [_ ->]. done.
  - unfold defaultStyleUrl, QVariantMap_value. rewrite Hconfig.
    rewrite lookup_insert_eq, lookup_insert_ne by done. done.
Qed.

(** X20.  The default metadata of a resolved ArcGIS layer: the load
    reports success, and the metadata it sets has the service URL as
    identifier and as the URL of its single link, named "Source" of type
    "WWW:LINK"; the type "dataset"; as title the "name" entry of the
    service document and as parent identifier its "serviceItemId" entry;
    and as rights the "copyrightText" entry, or no rights when that
    entry is missing or empty. *)
Theorem resolved_arcgis_metadata l raw doc :
  let uri := param (setEncodedUri (mDataSource l)) "url" in
  let m := QJsonDocument_object_toVariantMap doc in
  isArcgisSource (mDataSource l) →
  blockingGet uri = (NoError, raw) →
  fromJson raw = Some doc →
  m !! "error" = None →
  checkXYZUrlTemplate (uri +:+ "/" +:+ documentTemplate m) = true →
  ∃ l', loadDataSource l = (true, l') ∧
        loadDefaultMetadata l' =
          ("", true, set_mBase l' (setMetadata (mBase l') (arcgisDefaultMetadata l'))) ∧
        identifier (arcgisDefaultMetadata l') = uri ∧
        links (arcgisDefaultMetadata l') = [mkLink (tr "Source") "WWW:LINK" uri] ∧
        metadataType (arcgisDefaultMetadata l') = "dataset" ∧
        title (arcgisDefaultMetadata l') = QVariant_toString (QVariantMap_value m "name") ∧
        parentIdentifier (arcgisDefaultMetadata l')
          = QVariant_toString (QVariantMap_value m "serviceItemId") ∧
        rights (arcgisDefaultMetadata l') =
          (if (QVariant_toString (QVariantMap_value m "copyrightText") =? "")%string
           then []
           else [QVariant_toString (QVariantMap_value m "copyrightText")]).
Proof.
  intros uri m Hkind Hget Hjson Herr Hok.
  destruct (arcgis_resolved_state l raw doc Hkind Hget Hjson Herr Hok)
    as (l' & Hload & Hty & Hsource & Hconfig).
  exists l'. split; [exact Hload|]. split.
  - unfold loadDefaultMetadata, isArcgisLayer. rewrite Hty, Hsource.
    destruct Hkind as [_ ->]. done.
  - unfold arcgisDefaultMetadata, QVariantMap_value. rewrite Hconfig.
    rewrite lookup_insert_eq, !lookup_insert_ne by done. subst uri m. simpl.
    destruct (String.eqb_spec
                (QVariant_toString
                   (default VInvalid
                      (QJsonDocument_object_toVariantMap doc !! "serviceItemId"))) "")
      as [Hpid|Hpid];
      destruct (QVariant_toString
                  (default VInvalid
                     (QJsonDocument_object_toVariantMap doc !! "copyrightText")) =? "")%string;
      simpl; rewrite ?Hpid; done.
Qed.

(** X21.  An ArcGIS layer whose service could not be fetched when it
    was constructed is invalid, and still passes for an ArcGIS layer
    with nothing kept from the service: its default metadata load
    reports success with an empty identifier, an empty title and a
    "Source" link to the empty URL, and its default style would be
    requested from the URL "/". *)
Theorem unfetched_arcgis_layer_defaults uri baseName :
  isArcgisSource uri →
  (blockingGet (param (setEncodedUri uri) "url")).1 ≠ NoError →
  let l := QgsVectorTileLayer_new uri baseName in
  isValid l = false ∧ isArcgisLayer l = true ∧
  (loadDefaultMetadata l).1.2 = true ∧
  arcgisDefaultMetadata l =
    mkMetadata "" "" "dataset" "" [] [mkLink (tr "Source") "WWW:LINK" ""] ∧
  defaultStyleUrl l = "/".
Proof.
  intros Hkind Hfail. unfold QgsVectorTileLayer_new.
  rewrite arcgis_unfetched_state by done. simpl.
  assert (Harcgis :
            isArcgisLayer
              (setRenderer
                 (setValid
                    (set_mSourcePath
                       (set_mSourceType
                          (mkLayer (QgsMapLayer_new baseName) false nullRectangle "" uri
                             "" "" initialSourceMinZoom initialSourceMaxZoom ∅ None None)
                          "xyz")
                       (param (setEncodedUri uri) "url"))
                    false)
                 (Some (setStyles QgsVectorTileBasicRenderer_new
                          simpleStyleWithRandomColors)))
            = true).
  { unfold isArcgisLayer. simpl. by destruct Hkind as [_ ->]. }
  split; [done|]. split; [exact Harcgis|]. split.
  - unfold loadDefaultMetadata. by rewrite Harcgis.
  - done.
Qed.

End Interface.

(** ** Writing the symbology and reading it back *)

Section SymbologyWrite.

Context `{QStringOps} `{QUrlOps} `{DataSourceUriOps} `{PathResolverOps}
        `{VectorTileUtilsOps} `{GeometryOps} `{!MbTilesOps} `{NetworkOps}
        `{TileLoaderOps} `{!StyleOps} `{!MapLayerOps}
        `{!CloneOps} `{!StyleWriteOps} `{!DefaultsOps}.

Implicit Types l : QgsVectorTileLayer.

(** The first child of a name after a child was appended: the one there
    was, or else the appended child when it has the name. *)
Lemma firstChildElement_appendChild e child name :
  firstChildElement (appendChild (Some e) child) name =
    match firstChildElement (Some e) name with
    | Some found => Some found
    | None =>
        if (QDomElement_tagName child =? name)%string then Some child else None
    end.
Proof.
  destruct e as [tagName attrs children]. simpl.
  induction children as [|c rest IH]; simpl; [done|].
  by destruct (QDomElement_tagName c =? name)%string.
Qed.

Lemma appended_other_keeps_first e child name :
  QDomElement_tagName child ≠ name →
  firstChildElement (appendChild (Some e) child) name = firstChildElement (Some e) name.
Proof.
  intros Hne. rewrite firstChildElement_appendChild.
  destruct (firstChildElement (Some e) name); [done|].
  by destruct (String.eqb_spec (QDomElement_tagName child) name).
Qed.

Lemma appendChild_Some e child : ∃ e', appendChild (Some e) child = Some e'.
Proof. destruct e. by eexists. Qed.

Lemma writeSymbology_renderer_child l node context categories e1 :
  writeCommonStyle (mBase l) (toElement node) context categories = Some e1 →
  firstChildElement (Some e1) "renderer" = None →
  (∀ lab e, QDomElement_tagName (labeling_writeXml lab e context) = QDomElement_tagName e) →
  firstChildElement (toElement (writeSymbology l node context categories).2) "renderer" =
    match mRenderer l with
    | Some r =>
        if (QDomElement_tagName (writtenRendererElement r context categories)
              =? "renderer")%string
        then Some (writtenRendererElement r context categories)
        else None
    | None => None
    end.
Proof.
  intros Hcommon Hnone Htag. unfold writeSymbology. cbv zeta.
  rewrite Hcommon. cbn [snd].
  assert (Hstep : ∀ e2 : QDomElement,
            firstChildElement
              (toElement
                 (nodeOf node
                    match mLabeling l with
                    | Some lab =>
                        if testFlag categories Labeling
                        then appendChild (Some e2)
                               (labeling_writeXml lab
                                  (setAttribute (createElement "labeling") "type"
                                     (labeling_type lab)) context)
                        else Some e2
                    | None => Some e2
                    end)) "renderer"
            = firstChildElement (Some e2) "renderer").
  { intros e2. destruct (mLabeling l) as [lab|]; [|done].
    destruct (testFlag categories Labeling); [|done].
    destruct (appendChild_Some e2
                (labeling_writeXml lab
                   (setAttribute (createElement "labeling") "type" (labeling_type lab))
                   context)) as [e3 He3].
    rewrite He3. change (toElement (nodeOf node (Some e3))) with (Some e3).
    rewrite <- He3. apply appended_other_keeps_first. by rewrite Htag. }
  destruct (mRenderer l) as [r|].
  - change (if testFlag categories Symbology then _ else _)
      with (writtenRendererElement r context categories).
    destruct (appendChild_Some e1 (writtenRendererElement r context categories))
      as [e2 He2].
    rewrite He2, Hstep, <- He2.
    by rewrite firstChildElement_appendChild, Hnone.
  - by rewrite Hstep.
Qed.

(** X22.  A layer without a renderer writes no <renderer> element, and
    what it wrote cannot be read: when the layer element has no
    <renderer> child after the common style was written, and writing a
    labeling keeps the tag name of its element, every [readSymbology] of
    the written node returns false with "Missing <renderer> tag". *)
Theorem written_without_renderer_is_unreadable
    l node context categories e1 l2 errorMessage categories2 :
  mRenderer l = None →
  writeCommonStyle (mBase l) (toElement node) context categories = Some e1 →
  firstChildElement (Some e1) "renderer" = None →
  (∀ lab e, QDomElement_tagName (labeling_writeXml lab e context) = QDomElement_tagName e) →
  (writeSymbology l node context categories).1 = true ∧
  ∃ l3, readSymbology l2 (writeSymbology l node context categories).2 errorMessage
          context categories2
        = (false, tr "Missing <renderer> tag", l3).
Proof.
  intros Hren Hcommon Hnone Htag. split; [done|].
  pose proof (writeSymbology_renderer_child l node context categories e1
                Hcommon Hnone Htag) as Hchild.
  unfold readSymbology. rewrite Hchild, Hren. by eexists.
Qed.

(** X23.  What a layer with a basic renderer writes can be read back,
    with any categories on either side: when the renderer names its type
    "basic", the layer element has no <renderer> child after the common
    style was written, and the writers keep the tag name and the type
    attribute of the elements they fill, [readSymbology] of the written
    node returns true, and with the Symbology category it installs a
    basic renderer read from the element that was written. *)
Theorem written_symbology_reads_back
    l node context categories e1 r l2 errorMessage categories2 :
  mRenderer l = Some r →
  renderer_type r = "basic" →
  writeCommonStyle (mBase l) (toElement node) context categories = Some e1 →
  firstChildElement (Some e1) "renderer" = None →
  (∀ e, QDomElement_tagName (renderer_writeXml r e context) = QDomElement_tagName e ∧
        attribute (renderer_writeXml r e context) "type" = attribute e "type") →
  (∀ lab e, QDomElement_tagName (labeling_writeXml lab e context) = QDomElement_tagName e) →
  ∃ message l3,
    readSymbology l2 (writeSymbology l node context categories).2 errorMessage
      context categories2 = (true, message, l3) ∧
    (testFlag categories2 Symbology = true →
     renderer l3 =
       Some (renderer_readXml QgsVectorTileBasicRenderer_new
               (writtenRendererElement r context categories) context)).
Proof.
  intros Hren Htype Hcommon Hnone Hwriter Htag.
  pose proof (writeSymbology_renderer_child l node context categories e1
                Hcommon Hnone Htag) as Hchild.
  assert (Helem : QDomElement_tagName (writtenRendererElement r context categories)
                    = "renderer"
                  ∧ attribute (writtenRendererElement r context categories) "type"
                    = "basic").
  { unfold writtenRendererElement.
    destruct (testFlag categories Symbology).
    - destruct (Hwriter (setAttribute (createElement "renderer") "type"
                           (renderer_type r))) as [-> ->].
      simpl. by rewrite lookup_insert_eq.
    - simpl. by rewrite lookup_insert_eq. }
  destruct Helem as [Hname Hattr].
  unfold readSymbology. rewrite Hchild, Hren, Hname. simpl. rewrite Hattr. simpl.
  destruct (testFlag categories2 Symbology), (testFlag categories2 Labeling); simpl;
    repeat case_match; simplify_eq; eexists _, _; (split; [reflexivity|]); done.
Qed.

(** X24.  What [writeXml] writes, [readXml] reads: for a layer with a
    renderer that names its type "basic" and a layer node that is an
    element, [writeXml] returns true, and [readXml] of the written node
    returns true for any layer, provided the style manager and the
    common style leave the element without a <renderer> child of their
    own and the writers keep the tag name and the type attribute of the
    elements they fill. *)
Theorem written_layer_reads_back l layerNode context e0 e1 r l2 :
  toElement layerNode = Some e0 →
  mRenderer l = Some r →
  renderer_type r = "basic" →
  writeCommonStyle (mBase l)
    (toElement
       (writeStyleManager (mBase l) (ElementNode (setAttribute e0 "type" "vector-tile"))))
    context AllStyleCategories = Some e1 →
  firstChildElement (Some e1) "renderer" = None →
  (∀ e, QDomElement_tagName (renderer_writeXml r e context) = QDomElement_tagName e ∧
        attribute (renderer_writeXml r e context) "type" = attribute e "type") →
  (∀ lab e, QDomElement_tagName (labeling_writeXml lab e context) = QDomElement_tagName e) →
  (writeXml l layerNode context).1 = true ∧
  (readXml l2 (writeXml l layerNode context).2 context).1 = true.
Proof.
  intros Helem Hren Htype Hcommon Hnone Hwriter Htag.
  unfold writeXml. cbv zeta. rewrite Helem.
  change (nodeOf layerNode (Some (setAttribute e0 "type" "vector-tile")))
    with (ElementNode (setAttribute e0 "type" "vector-tile")).
  split; [done|].
  pose proof (writeSymbology_renderer_child l _ context AllStyleCategories e1
                Hcommon Hnone Htag) as Hchild.
  assert (Hwritten :
            QDomElement_tagName (writtenRendererElement r context AllStyleCategories)
              = "renderer"
            ∧ attribute (writtenRendererElement r context AllStyleCategories) "type"
              = "basic").
  { unfold writtenRendererElement. cbv zeta.
    destruct (testFlag AllStyleCategories Symbology).
    - destruct (Hwriter (setAttribute (createElement "renderer") "type"
                           (renderer_type r))) as [-> ->].
      simpl. by rewrite lookup_insert_eq.
    - simpl. by rewrite lookup_insert_eq. }
  destruct Hwritten as [Hname Hattr].
  unfold readXml. destruct (loadDataSource l2) as [ok l3].
  unfold readSymbology. rewrite Hchild, Hren, Hname. simpl. rewrite Hattr. simpl.
  repeat case_match; simplify_eq; done.
Qed.

End SymbologyWrite.

(** * The properties on the reference environment *)

Import Reference.

Lemma lookup_item_removed d k v :
  lookup_item (app (remove_items d k) [(k, v)]) k = Some v.
Proof.
  unfold remove_items. induction d as [|[k0 v0] d IH]; simpl.
  - by rewrite String.eqb_refl.
  - destruct (String.eqb_spec k0 k) as [?|Hne]; simpl; [exact IH|].
    by destruct (String.eqb_spec k0 k).
Qed.

Lemma lookup_item_kept d k k' v :
  k ≠ k' → lookup_item (app (remove_items d k) [(k, v)]) k' = lookup_item d k'.
Proof.
  intros Hne. unfold remove_items. induction d as [|[k0 v0] d IH]; simpl.
  - by destruct (String.eqb_spec k k').
  - destruct (String.eqb_spec k0 k) as [->|Hk0]; simpl.
    + by destruct (String.eqb_spec k k').
    + by destruct (String.eqb_spec k0 k').
Qed.

Lemma remove_items_removed d k v :
  remove_items (app (remove_items d k) [(k, v)]) k = remove_items d k.
Proof.
  unfold remove_items. rewrite List.filter_app. simpl.
  rewrite String.eqb_refl. simpl. rewrite app_nil_r.
  induction d as [|[k0 v0] d IH]; simpl; [done|].
  destruct (String.eqb_spec k0 k) as [?|Hk0]; simpl; [exact IH|].
  destruct (String.eqb_spec k0 k); [done|]. by rewrite IH.
Qed.

#[export] Instance dsuri_laws : DataSourceUriLaws.
Proof.
  split; simpl.
  - intros d k v. by rewrite lookup_item_removed.
  - intros d k k' v Hne. by rewrite lookup_item_kept.
  - apply remove_items_removed.
Qed.

(** The sample plain xyz source resolves to the zoom range it asks for,
    and to 0 and 14 without the parameters. *)
Lemma plain_xyz_zoom_range_witness :
  let l := QgsVectorTileLayer_new xyzSource "roads" in
  isPlainXyzSource (mDataSource l) ∧
  checkXYZUrlTemplate (param (setEncodedUri (mDataSource l)) "url") = true ∧
  ∃ l', loadDataSource l = (true, l') ∧ sourceMinZoom l' = 2 ∧ sourceMaxZoom l' = 10.
Proof.
  intros l.
  assert (Hkind : isPlainXyzSource (mDataSource l)).
  { split; vm_compute; [reflexivity|discriminate]. }
  assert (Hok : checkXYZUrlTemplate (param (setEncodedUri (mDataSource l)) "url") = true).
  { vm_compute; reflexivity. }
  split; [exact Hkind|]. split; [exact Hok|].
  destruct (plain_xyz_zoom_range l Hkind Hok) as (l' & Hload & Hmin & Hmax).
  exists l'. split; [exact Hload|]. split; [exact Hmin|exact Hmax].
Defined.

Example plain_xyz_default_zoom_range :
  sourceMinZoom (QgsVectorTileLayer_new xyzDefaultSource "roads") = 0 ∧
  sourceMaxZoom (QgsVectorTileLayer_new xyzDefaultSource "roads") = 14.
Proof. split; vm_compute; reflexivity. Qed.

(** C3 fails on the code: a plain xyz source with zmin=5 and zmax=3
    resolves, the layer is valid, and its minimum zoom 5 exceeds its
    maximum zoom 3. *)
Lemma reversed_zoom_range_resolves :
  let l := QgsVectorTileLayer_new xyzReversedSource "roads" in
  isValid l = true ∧
  loadDataSource l = (true, (loadDataSource l).2) ∧
  sourceMinZoom (loadDataSource l).2 = 5 ∧
  sourceMaxZoom (loadDataSource l).2 = 3 ∧
  ¬ (∀ l0 l', loadDataSource l0 = (true, l') → sourceMinZoom l' ≤ sourceMaxZoom l').
Proof.
  intros l.
  assert (Hload : loadDataSource l = (true, (loadDataSource l).2))
    by (vm_compute; reflexivity).
  assert (Hmin : sourceMinZoom (loadDataSource l).2 = 5) by (vm_compute; reflexivity).
  assert (Hmax : sourceMaxZoom (loadDataSource l).2 = 3) by (vm_compute; reflexivity).
  split; [vm_compute; reflexivity|]. split; [exact Hload|].
  split; [exact Hmin|]. split; [exact Hmax|].
  intros Hordered. specialize (Hordered l _ Hload).
  rewrite Hmin, Hmax in Hordered. lia.
Qed.

Lemma resolved_zoom_range_ordered_witness :
  let l := QgsVectorTileLayer_new xyzSource "roads" in
  loadDataSource l = (true, (loadDataSource l).2) ∧
  sourceMinZoom (loadDataSource l).2 ≤ sourceMaxZoom (loadDataSource l).2.
Proof.
  intros l.
  assert (Hload : loadDataSource l = (true, (loadDataSource l).2))
    by (vm_compute; reflexivity).
  split; [exact Hload|].
  apply (resolved_zoom_range_ordered l _ Hload).
  - intros _. vm_compute. discriminate.
  - intros [_ Hsvc]. exfalso. revert Hsvc. vm_compute. discriminate.
  - intros Hty. exfalso. revert Hty. vm_compute. discriminate.
Defined.

Lemma mbtiles_format_not_pbf_fails_witness :
  isMbtilesSource reliefSource ∧
  mbtiles_open (param (setEncodedUri reliefSource) "url")
    = Some ("/data/relief.mbtiles", reliefMetadata) ∧
  metadataValue ("/data/relief.mbtiles", reliefMetadata) "format" ≠ "pbf" ∧
  isValid (QgsVectorTileLayer_new reliefSource "relief") = false.
Proof.
  assert (Hkind : isMbtilesSource reliefSource) by (vm_compute; reflexivity).
  assert (Hopen : mbtiles_open (param (setEncodedUri reliefSource) "url")
                    = Some ("/data/relief.mbtiles", reliefMetadata))
    by (vm_compute; reflexivity).
  assert (Hformat : metadataValue ("/data/relief.mbtiles", reliefMetadata) "format" ≠ "pbf")
    by (vm_compute; discriminate).
  split; [exact Hkind|]. split; [exact Hopen|]. split; [exact Hformat|].
  exact (proj2 (mbtiles_format_not_pbf_fails reliefSource "relief" _ Hkind Hopen Hformat)).
Defined.

Lemma arcgis_service_resolution_witness :
  let l := QgsVectorTileLayer_new arcgisSource "basemap" in
  let uri := "https://maps.example.org/VectorTileServer" in
  isArcgisSource (mDataSource l) ∧
  param (setEncodedUri (mDataSource l)) "url" = uri ∧
  ∃ l', loadDataSource l = (true, l') ∧
        sourceMinZoom l' = 0 ∧ sourceMaxZoom l' = 16 ∧
        sourcePath l' = uri +:+ "/" +:+ "{z}/{x}/{y}.pbf".
Proof.
  intros l uri.
  assert (Hkind : isArcgisSource (mDataSource l)) by (split; vm_compute; reflexivity).
  assert (Hurl : param (setEncodedUri (mDataSource l)) "url" = uri)
    by (vm_compute; reflexivity).
  split; [exact Hkind|]. split; [exact Hurl|].
  destruct (arcgis_service_resolution l uri Hkind Hurl) as (Hdoc & _).
  apply (Hdoc (bytes_of "service")); vm_compute; reflexivity.
Defined.

Lemma getRawTile_first_or_empty_witness :
  let l := QgsVectorTileLayer_new xyzSource "roads" in
  getRawTile l (mkTileXYZ 0 0 20) = [] ∧
  getRawTile l (mkTileXYZ 3 5 3) = [Byte.x1a].
Proof.
  intros l. split.
  - apply (proj1 (getRawTile_first_or_empty l (mkTileXYZ 0 0 20))).
    vm_compute; reflexivity.
  - apply (proj1 (proj2 (getRawTile_first_or_empty l (mkTileXYZ 3 5 3)))
             (mkRawData (mkTileXYZ 3 5 3) [Byte.x1a]) []).
    vm_compute; reflexivity.
Defined.

Lemma resolved_crs_is_web_mercator_witness :
  let l := QgsVectorTileLayer_new streetsSource "streets" in
  loadDataSource l = (true, (loadDataSource l).2) ∧
  crs (loadDataSource l).2 = "EPSG:3857".
Proof.
  intros l.
  assert (Hload : loadDataSource l = (true, (loadDataSource l).2))
    by (vm_compute; reflexivity).
  split; [exact Hload|].
  exact (resolved_crs_is_web_mercator l _ Hload).
Defined.

Lemma mbtiles_zoom_from_metadata_witness :
  let l := QgsVectorTileLayer_new streetsSource "streets" in
  let reader : QgsMbTiles := ("/data/streets.mbtiles", streetsMetadata) in
  isMbtilesSource (mDataSource l) ∧
  mbtiles_open (param (setEncodedUri (mDataSource l)) "url") = Some reader ∧
  metadataValue reader "format" = "pbf" ∧
  ∃ l', loadDataSource l = (true, l') ∧ sourceMinZoom l' = 2 ∧ sourceMaxZoom l' = 10.
Proof.
  intros l reader.
  assert (Hkind : isMbtilesSource (mDataSource l)) by (vm_compute; reflexivity).
  assert (Hopen : mbtiles_open (param (setEncodedUri (mDataSource l)) "url")
                    = Some reader) by (vm_compute; reflexivity).
  assert (Hformat : metadataValue reader "format" = "pbf") by (vm_compute; reflexivity).
  split; [exact Hkind|]. split; [exact Hopen|]. split; [exact Hformat|].
  destruct (mbtiles_zoom_from_metadata l reader Hkind Hopen Hformat)
    as (l' & Hload & Hmin & Hmax).
  exists l'. split; [exact Hload|]. split; [exact Hmin|exact Hmax].
Defined.

(** An archive whose minzoom does not convert keeps the bound the member
    had, here the initial -1, and takes the other bound. *)
Example mbtiles_partial_metadata :
  sourceMinZoom (QgsVectorTileLayer_new partialSource "partial") = -1 ∧
  sourceMaxZoom (QgsVectorTileLayer_new partialSource "partial") = 9.
Proof. split; vm_compute; reflexivity. Qed.

Lemma readSymbology_unknown_types_witness :
  let l := QgsVectorTileLayer_new xyzSource "roads" in
  (readSymbology l (layerElement "fancy" "basic") "" "/proj" AllStyleCategories).1.1
    = false ∧
  ∃ message l',
    readSymbology l (layerElement "basic" "fancy") "" "/proj" AllStyleCategories
      = (true, message, l') ∧
    labeling l' = None.
Proof.
  intros l.
  assert (Hfancy : firstChildElement (toElement (layerElement "fancy" "basic")) "renderer"
                     = Some (rendererElement "fancy")) by (vm_compute; reflexivity).
  assert (Hbasic : firstChildElement (toElement (layerElement "basic" "fancy")) "renderer"
                     = Some (rendererElement "basic")) by (vm_compute; reflexivity).
  assert (Hlabeling : firstChildElement (toElement (layerElement "basic" "fancy")) "labeling"
                        = Some (labelingElement "fancy")) by (vm_compute; reflexivity).
  assert (Hsym : testFlag AllStyleCategories Symbology = true)
    by (vm_compute; reflexivity).
  assert (Hlab : testFlag AllStyleCategories Labeling = true)
    by (vm_compute; reflexivity).
  split.
  - apply (proj1 (readSymbology_unknown_types l _ "" "/proj" AllStyleCategories _ Hfancy)
             Hsym).
    vm_compute; discriminate.
  - apply (proj1 (proj2 (readSymbology_unknown_types l _ "" "/proj" AllStyleCategories
                           _ Hbasic))
             Hlab (fun _ => eq_refl) _ Hlabeling).
    vm_compute; discriminate.
Defined.

(** C7 fails on the code when a category is not among the ones read:
    with only the Labeling category a renderer of an unknown type does
    not fail the read, and with only the Symbology category an unknown
    labeling type leaves the labeling the layer had installed. *)
Lemma unread_category_skips_type_check :
  let l := QgsVectorTileLayer_new xyzSource "roads" in
  let installed : option QgsVectorTileLabeling :=
    Some (Some (labelingElement "basic")) in
  attribute (rendererElement "fancy") "type" ≠ "basic" ∧
  (readSymbology l (layerElement "fancy" "basic") "" "/proj" Labeling).1.1 = true ∧
  (readSymbology (setLabeling l installed) (layerElement "basic" "fancy") ""
     "/proj" Symbology).1.1 = true ∧
  labeling (readSymbology (setLabeling l installed) (layerElement "basic" "fancy") ""
              "/proj" Symbology).2 = installed.
Proof.
  intros l installed.
  split; [vm_compute; discriminate|].
  split; [vm_compute; reflexivity|].
  split; vm_compute; reflexivity.
Qed.

(** A full layer read looks at both categories. *)
Example readXml_unknown_types :
  let l := QgsVectorTileLayer_new xyzSource "roads" in
  (readXml l (layerElement "fancy" "basic") "/proj").1 = false ∧
  (readXml l (layerElement "basic" "fancy") "/proj").1 = true ∧
  labeling (readXml l (layerElement "basic" "fancy") "/proj").2 = None.
Proof. intros l. repeat split; vm_compute; reflexivity. Qed.



(** ** Resolution outcomes on the reference environment *)

Lemma resolution_succeeds_iff_witness :
  let l := QgsVectorTileLayer_new xyzSource "roads" in
  isPlainXyzSource (mDataSource l) ∧
  checkXYZUrlTemplate (param (setEncodedUri (mDataSource l)) "url") = true ∧
  (loadDataSource l).1 = true.
Proof.
  intros l.
  assert (Hkind : isPlainXyzSource (mDataSource l)).
  { split; vm_compute; [reflexivity|discriminate]. }
  assert (Hok : checkXYZUrlTemplate (param (setEncodedUri (mDataSource l)) "url") = true).
  { vm_compute; reflexivity. }
  split; [exact Hkind|]. split; [exact Hok|].
  destruct (resolution_succeeds_iff l) as [_ Hback].
  apply Hback. right. left. split; [exact Hkind|exact Hok].
Defined.

Lemma failed_resolution_keeps_witness :
  let l := QgsVectorTileLayer_new reliefSource "relief" in
  loadDataSource l = (false, (loadDataSource l).2) ∧
  sourceMinZoom (loadDataSource l).2 = -1 ∧ crs (loadDataSource l).2 = "".
Proof.
  intros l.
  assert (Hload : loadDataSource l = (false, (loadDataSource l).2))
    by (vm_compute; reflexivity).
  split; [exact Hload|].
  destruct (failed_resolution_keeps l _ Hload) as (Hmin & _ & _ & Hcrs & _).
  split.
  - rewrite Hmin. vm_compute; reflexivity.
  - rewrite Hcrs. vm_compute; reflexivity.
Defined.

Lemma resolved_extent_witness :
  let l := QgsVectorTileLayer_new streetsSource "streets" in
  loadDataSource l = (true, (loadDataSource l).2) ∧
  mExtent (loadDataSource l).2 = ToWebMercator (ArchiveExtent "/data/streets.mbtiles").
Proof.
  intros l.
  assert (Hload : loadDataSource l = (true, (loadDataSource l).2))
    by (vm_compute; reflexivity).
  assert (Hkind : isMbtilesSource (mDataSource l)) by (vm_compute; reflexivity).
  assert (Hopen : mbtiles_open (param (setEncodedUri (mDataSource l)) "url")
                    = Some ("/data/streets.mbtiles", streetsMetadata))
    by (vm_compute; reflexivity).
  split; [exact Hload|].
  exact (proj2 (resolved_extent l _ Hload) Hkind _ Hopen).
Defined.

Lemma arcgis_resolution_takes_document_witness :
  let l := QgsVectorTileLayer_new arcgisSource "basemap" in
  ∃ l', loadDataSource l = (true, l') ∧
        sourcePath l' = "https://maps.example.org/VectorTileServer/{z}/{x}/{y}.pbf" ∧
        sourceMaxZoom l' = 16 ∧
        mArcgisLayerConfiguration l' !! "serviceUri"
          = Some (VString "https://maps.example.org/VectorTileServer").
Proof.
  intros l.
  assert (Hkind : isArcgisSource (mDataSource l)) by (split; vm_compute; reflexivity).
  assert (Hget : blockingGet (param (setEncodedUri (mDataSource l)) "url")
                   = (NoError, bytes_of "service")) by (vm_compute; reflexivity).
  assert (Hjson : fromJson (bytes_of "service") = Some (JsonObject arcgisDocument))
    by (vm_compute; reflexivity).
  destruct (arcgis_resolution_takes_document l _ _ Hkind Hget Hjson)
    as (l' & Hload & Hpath & _ & Hmax & Hconfig).
  { vm_compute; reflexivity. }
  { vm_compute; reflexivity. }
  exists l'. split; [exact Hload|]. split; [|split].
  - rewrite Hpath. vm_compute; reflexivity.
  - rewrite Hmax. vm_compute; reflexivity.
  - rewrite Hconfig. vm_compute; reflexivity.
Defined.

Lemma constructed_layer_state_witness :
  let l := QgsVectorTileLayer_new reliefSource "relief" in
  isValid l = false ∧ crs l = "" ∧ sourceMinZoom l = -1 ∧ sourceMaxZoom l = -1.
Proof.
  intros l.
  assert (Hinvalid : isValid l = false) by (vm_compute; reflexivity).
  destruct (constructed_layer_state reliefSource "relief") as (_ & _ & Hcrs & Hzoom).
  fold l in Hcrs, Hzoom. destruct (Hzoom Hinvalid) as (Hmin & Hmax & _).
  split; [exact Hinvalid|]. split; [|split].
  - rewrite Hcrs, Hinvalid. reflexivity.
  - rewrite Hmin. reflexivity.
  - rewrite Hmax. reflexivity.
Defined.

(** ** Reading on the reference environment *)

Lemma readSymbology_missing_renderer_witness :
  let l := QgsVectorTileLayer_new xyzSource "roads" in
  firstChildElement (toElement OtherNode) "renderer" = None ∧
  ∃ l', readSymbology l OtherNode "" "/proj" Labeling
          = (false, "Missing <renderer> tag", l') ∧
        renderer l' = renderer l.
Proof.
  intros l. split; [reflexivity|].
  destruct (readSymbology_missing_renderer l OtherNode "" "/proj" Labeling eq_refl)
    as (l' & Hread & Hren & _).
  exists l'. split; [exact Hread|exact Hren].
Defined.

Lemma readSymbology_failure_installs_nothing_witness :
  let l := QgsVectorTileLayer_new xyzSource "roads" in
  let read := readSymbology l (layerElement "fancy" "basic") "" "/proj" AllStyleCategories in
  read.1.1 = false ∧
  renderer read.2 = renderer l ∧ labeling read.2 = labeling l ∧
  sourceMinZoom read.2 = 2 ∧ sourceMaxZoom read.2 = 10.
Proof.
  intros l read.
  assert (Hfailed : read.1.1 = false) by (vm_compute; reflexivity).
  split; [exact Hfailed|].
  destruct (readSymbology_failure_installs_nothing l (layerElement "fancy" "basic") ""
              "/proj" AllStyleCategories)
    as ((_ & _ & Hmin & Hmax & _) & Hinstalled).
  destruct (Hinstalled Hfailed) as [Hren Hlab].
  split; [exact Hren|]. split; [exact Hlab|]. split.
  - fold read in Hmin. rewrite Hmin. vm_compute; reflexivity.
  - fold read in Hmax. rewrite Hmax. vm_compute; reflexivity.
Defined.

Lemma readSymbology_installs_witness :
  let l := QgsVectorTileLayer_new xyzSource "roads" in
  ∃ message l',
    readSymbology l (layerElement "basic" "basic") "" "/proj" AllStyleCategories
      = (true, message, l') ∧
    renderer l' = Some (false, Some (rendererElement "basic")) ∧
    labeling l' = Some (Some (labelingElement "basic")).
Proof.
  intros l.
  assert (Helem : firstChildElement (toElement (layerElement "basic" "basic")) "renderer"
                    = Some (rendererElement "basic")) by (vm_compute; reflexivity).
  assert (Htype : attribute (rendererElement "basic") "type" = "basic")
    by (vm_compute; reflexivity).
  assert (Hsym : testFlag AllStyleCategories Symbology = true)
    by (vm_compute; reflexivity).
  assert (Hlab : testFlag AllStyleCategories Labeling = true)
    by (vm_compute; reflexivity).
  destruct (readSymbology_installs l _ "" "/proj" AllStyleCategories _
              Helem Htype Hsym Hlab) as (message & l' & Hread & Hren & Hlabeling).
  exists message, l'. split; [exact Hread|]. split.
  - rewrite Hren. vm_compute; reflexivity.
  - rewrite Hlabeling. vm_compute; reflexivity.
Defined.

Lemma readSymbology_message_on_success_witness :
  let l := QgsVectorTileLayer_new xyzSource "roads" in
  let read := readSymbology l (layerElement "basic" "fancy") "" "/proj" AllStyleCategories in
  read = (true, read.1.2, read.2) ∧ read.1.2 = "Unknown labeling type: basic".
Proof.
  intros l read.
  assert (Hread : read = (true, read.1.2, read.2)) by (vm_compute; reflexivity).
  split; [exact Hread|].
  destruct (readSymbology_message_on_success l _ _ _ _ _ _ Hread)
    as (elemRenderer & Helem & Hmessage).
  assert (Hrenderer : firstChildElement (toElement (layerElement "basic" "fancy")) "renderer"
                        = Some (rendererElement "basic")) by (vm_compute; reflexivity).
  rewrite Hrenderer in Helem. injection Helem as <-.
  rewrite Hmessage. vm_compute; reflexivity.
Defined.

Lemma readXml_resolves_and_reads_witness :
  let l := QgsVectorTileLayer_new reliefSource "relief" in
  (readXml l (layerElement "basic" "basic") "/proj").1 = true ∧
  isValid (readXml l (layerElement "basic" "basic") "/proj").2 = false ∧
  (readXml l (layerElement "fancy" "basic") "/proj").1 = false ∧
  (readXml l OtherNode "/proj").1 = false.
Proof.
  intros l.
  assert (Hbasic : firstChildElement (toElement (layerElement "basic" "basic")) "renderer"
                     = Some (rendererElement "basic")) by (vm_compute; reflexivity).
  assert (Hfancy : firstChildElement (toElement (layerElement "fancy" "basic")) "renderer"
                     = Some (rendererElement "fancy")) by (vm_compute; reflexivity).
  assert (Hnone : firstChildElement (toElement OtherNode) "renderer" = None)
    by (vm_compute; reflexivity).
  assert (Hsym : testFlag AllStyleCategories Symbology = true)
    by (vm_compute; reflexivity).
  destruct (readXml_resolves_and_reads l (layerElement "basic" "basic") "/proj")
    as ((Hvalid & _) & _ & _ & Hread & _).
  destruct (readXml_resolves_and_reads l (layerElement "fancy" "basic") "/proj")
    as (_ & _ & _ & Hrejected & _).
  destruct (readXml_resolves_and_reads l OtherNode "/proj")
    as (_ & _ & Hmissing & _).
  split; [|split; [|split]].
  - apply (proj1 (Hread _ Hbasic)). vm_compute; reflexivity.
  - rewrite Hvalid. vm_compute; reflexivity.
  - apply (proj2 (Hrejected _ Hfancy) Hsym). vm_compute; discriminate.
  - exact (Hmissing Hnone).
Defined.

(** ** The codings on the reference environment *)

Lemma decoding_undoes_encoding_witness :
  decodedSource (encodedSource absoluteMbtilesSource project) "" project
    = absoluteMbtilesSource ∧
  decodedSource (encodedSource absoluteLocalXyzSource project) "" project
    = absoluteLocalXyzSource.
Proof.
  assert (Hmbtiles : param (setEncodedUri absoluteMbtilesSource) "type" = "mbtiles")
    by (vm_compute; reflexivity).
  assert (Hxyz : param (setEncodedUri absoluteLocalXyzSource) "type" = "xyz")
    by (vm_compute; reflexivity).
  assert (Hlocal : isLocalFile (QUrl_new (param (setEncodedUri absoluteLocalXyzSource) "url"))
                     = true) by (vm_compute; reflexivity).
  split.
  - apply (proj1 (decoding_undoes_encoding absoluteMbtilesSource "" project) Hmbtiles);
      vm_compute; reflexivity.
  - apply (proj2 (decoding_undoes_encoding absoluteLocalXyzSource "" project)
             Hxyz Hlocal "/proj/tiles/{z}/{x}/{y}.pbf" "file:./tiles/{z}/{x}/{y}.pbf");
      vm_compute; reflexivity.
Defined.

Lemma codings_rewrite_only_url_witness :
  param (setEncodedUri (encodedSource absoluteMbtilesSource project)) "type" = "mbtiles" ∧
  param (setEncodedUri (encodedSource absoluteMbtilesSource project)) "url"
    = "./a.mbtiles" ∧
  param (setEncodedUri (decodedSource storedMbtilesSource "" project)) "url"
    = "/proj/a.mbtiles".
Proof.
  assert (Hwrite : ∀ url,
            rewrittenUrl (writePath project) absoluteMbtilesSource = Some url →
            reparses (withUrl (setEncodedUri absoluteMbtilesSource) url)).
  { intros url Hurl.
    assert (Hval : url = "./a.mbtiles") by (revert Hurl; vm_compute; congruence).
    rewrite Hval. vm_compute; reflexivity. }
  assert (Hread : ∀ url,
            rewrittenUrl (readPath project) absoluteMbtilesSource = Some url →
            reparses (withUrl (setEncodedUri absoluteMbtilesSource) url)).
  { intros url Hurl.
    assert (Hval : url = "/proj/a.mbtiles") by (revert Hurl; vm_compute; congruence).
    rewrite Hval. vm_compute; reflexivity. }
  assert (Hwrite' : ∀ url,
            rewrittenUrl (writePath project) storedMbtilesSource = Some url →
            reparses (withUrl (setEncodedUri storedMbtilesSource) url)).
  { intros url Hurl.
    assert (Hval : url = "./a.mbtiles") by (revert Hurl; vm_compute; congruence).
    rewrite Hval. vm_compute; reflexivity. }
  assert (Hread' : ∀ url,
            rewrittenUrl (readPath project) storedMbtilesSource = Some url →
            reparses (withUrl (setEncodedUri storedMbtilesSource) url)).
  { intros url Hurl.
    assert (Hval : url = "/proj/a.mbtiles") by (revert Hurl; vm_compute; congruence).
    rewrite Hval. vm_compute; reflexivity. }
  split; [|split].
  - rewrite (proj1 (codings_rewrite_only_url absoluteMbtilesSource "" project "type"
                      Hwrite Hread)).
    vm_compute; reflexivity.
  - rewrite (proj1 (codings_rewrite_only_url absoluteMbtilesSource "" project "url"
                      Hwrite Hread)).
    vm_compute; reflexivity.
  - rewrite (proj2 (codings_rewrite_only_url storedMbtilesSource "" project "url"
                      Hwrite' Hread')).
    vm_compute; reflexivity.
Defined.

(** ** Cloning, defaults and writing on the reference environment *)

(** A clone drops the labeling the layer had installed. *)
Example clone_drops_labeling :
  let l := setLabeling (QgsVectorTileLayer_new xyzSource "roads")
             (Some (Some (labelingElement "basic"))) in
  labeling l = Some (Some (labelingElement "basic")) ∧ labeling (clone l) = None.
Proof. intros l. split; vm_compute; reflexivity. Qed.

Lemma loadDefaultStyle_failure_keeps_layer_witness :
  let l := QgsVectorTileLayer_new arcgisSource "basemap" in
  let loaded := loadDefaultStyle l in
  loaded = (loaded.1.1, false, loaded.2) ∧
  loaded.2 = l ∧ loaded.1.1 = "Error retrieving default style".
Proof.
  intros l loaded.
  assert (Hloaded : loaded = (loaded.1.1, false, loaded.2)) by (vm_compute; reflexivity).
  split; [exact Hloaded|].
  destruct (loadDefaultStyle_failure_keeps_layer l _ _ Hloaded) as (Hsame & _ & _).
  split; [exact Hsame|]. vm_compute; reflexivity.
Defined.

Lemma unfetched_arcgis_layer_defaults_witness :
  let l := QgsVectorTileLayer_new slowSource "basemap" in
  isValid l = false ∧ (loadDefaultMetadata l).1.2 = true ∧
  identifier (arcgisDefaultMetadata l) = "" ∧ defaultStyleUrl l = "/".
Proof.
  intros l.
  assert (Hkind : isArcgisSource slowSource) by (split; vm_compute; reflexivity).
  assert (Hfail : (blockingGet (param (setEncodedUri slowSource) "url")).1 ≠ NoError)
    by (vm_compute; discriminate).
  destruct (unfetched_arcgis_layer_defaults slowSource "basemap" Hkind Hfail)
    as (Hinvalid & _ & Hflag & Hmetadata & Hurl).
  fold l in Hinvalid, Hflag, Hmetadata, Hurl.
  split; [exact Hinvalid|]. split; [exact Hflag|]. split; [|exact Hurl].
  rewrite Hmetadata. reflexivity.
Defined.

Lemma written_without_renderer_is_unreadable_witness :
  let l := setRenderer (QgsVectorTileLayer_new xyzSource "roads") None in
  let written := (writeSymbology l emptyLayerElement "/proj" AllStyleCategories).2 in
  ∃ l', readSymbology l written "" "/proj" AllStyleCategories
          = (false, "Missing <renderer> tag", l').
Proof.
  intros l written.
  assert (Hcommon : writeCommonStyle (mBase l) (toElement emptyLayerElement) "/proj"
                      AllStyleCategories
                    = Some (DomElement "maplayer" ∅ [createElement "blendMode"]))
    by (vm_compute; reflexivity).
  destruct (written_without_renderer_is_unreadable l emptyLayerElement "/proj"
              AllStyleCategories _ l "" AllStyleCategories eq_refl Hcommon)
    as (_ & l' & Hread).
  { vm_compute; reflexivity. }
  { intros lab e. reflexivity. }
  exists l'. exact Hread.
Defined.

Lemma written_symbology_reads_back_witness :
  let l := QgsVectorTileLayer_new xyzSource "roads" in
  let written := (writeSymbology l emptyLayerElement "/proj" Labeling).2 in
  ∃ message l',
    readSymbology l written "" "/proj" AllStyleCategories = (true, message, l') ∧
    renderer l' = Some (false, Some (rendererElement "basic")).
Proof.
  intros l written.
  assert (Hren : mRenderer l = Some (true, None)) by (vm_compute; reflexivity).
  assert (Hcommon : writeCommonStyle (mBase l) (toElement emptyLayerElement) "/proj"
                      Labeling
                    = Some (DomElement "maplayer" ∅ [createElement "blendMode"]))
    by (vm_compute; reflexivity).
  assert (Hsym : testFlag AllStyleCategories Symbology = true)
    by (vm_compute; reflexivity).
  assert (Hbasic : ∀ r : QgsVectorTileRenderer, renderer_type r = "basic")
    by (intros r; reflexivity).
  destruct (written_symbology_reads_back l emptyLayerElement "/proj" Labeling _ _ l ""
              AllStyleCategories Hren (Hbasic _) Hcommon)
    as (message & l' & Hread & Hrenderer).
  { vm_compute; reflexivity. }
  { intros [tagName attrs children]. split; [reflexivity|].
    simpl. by rewrite lookup_insert_ne. }
  { intros lab e. reflexivity. }
  exists message, l'. split; [exact Hread|].
  rewrite (Hrenderer Hsym). vm_compute; reflexivity.
Defined.

Lemma plain_xyz_malformed_zoom_witness :
  let l := QgsVectorTileLayer_new xyzMalformedSource "roads" in
  ∃ l', loadDataSource l = (true, l') ∧ sourceMinZoom l' = 0 ∧ sourceMaxZoom l' = 0.
Proof.
  intros l.
  assert (Hkind : isPlainXyzSource (mDataSource l)).
  { split; vm_compute; [reflexivity|discriminate]. }
  assert (Hok : checkXYZUrlTemplate (param (setEncodedUri (mDataSource l)) "url") = true).
  { vm_compute; reflexivity. }
  destruct (plain_xyz_malformed_zoom l Hkind Hok) as (l' & Hload & Hmin & Hmax).
  exists l'. split; [exact Hload|]. split.
  - apply Hmin; vm_compute; reflexivity.
  - apply Hmax; vm_compute; reflexivity.
Defined.

Lemma written_layer_reads_back_witness :
  let l := QgsVectorTileLayer_new xyzSource "roads" in
  let invalid := QgsVectorTileLayer_new reliefSource "relief" in
  (writeXml l emptyLayerElement "/proj").1 = true ∧
  (readXml invalid (writeXml l emptyLayerElement "/proj").2 "/proj").1 = true.
Proof.
  intros l invalid.
  assert (Hren : mRenderer l = Some (true, None)) by (vm_compute; reflexivity).
  assert (Hbasic : ∀ r : QgsVectorTileRenderer, renderer_type r = "basic")
    by (intros r; reflexivity).
  assert (Hcommon :
            writeCommonStyle (mBase l)
              (toElement
                 (writeStyleManager (mBase l)
                    (ElementNode (setAttribute (DomElement "maplayer" ∅ []) "type"
                                    "vector-tile"))))
              "/proj" AllStyleCategories
            = Some (DomElement "maplayer" {[ "type" := "vector-tile" ]}
                      [createElement "blendMode"]))
    by (vm_compute; reflexivity).
  apply (written_layer_reads_back l emptyLayerElement "/proj" _ _ _ invalid
           eq_refl Hren (Hbasic _) Hcommon).
  - vm_compute; reflexivity.
  - intros [tagName attrs children]. split; [reflexivity|].
    simpl. by rewrite lookup_insert_ne.
  - intros lab e. reflexivity.
Defined.

Section WorldService.

#[local] Existing Instance worldNetwork.

Lemma arcgis_document_missing_entries_witness :
  (∀ l', loadDataSource (QgsVectorTileLayer_new worldSource "world") = (true, l') →
         sourceMaxZoom l' = 0) ∧
  (loadDataSource (QgsVectorTileLayer_new bareSource "bare")).1 = false ∧
  sourcePath (loadDataSource (QgsVectorTileLayer_new bareSource "bare")).2
    = "https://maps.example.org/Bare/".
Proof.
  split.
  - set (l := QgsVectorTileLayer_new worldSource "world").
    assert (Hkind : isArcgisSource (mDataSource l)) by (split; vm_compute; reflexivity).
    assert (Hget : blockingGet (param (setEncodedUri (mDataSource l)) "url")
                     = (NoError, bytes_of "world")) by (vm_compute; reflexivity).
    assert (Hjson : fromJson (bytes_of "world") = Some (JsonObject worldDocument))
      by (vm_compute; reflexivity).
    apply (proj1 (arcgis_document_missing_entries l _ _ Hkind Hget Hjson
                    ltac:(vm_compute; reflexivity))).
    vm_compute; reflexivity.
  - set (l := QgsVectorTileLayer_new bareSource "bare").
    assert (Hkind : isArcgisSource (mDataSource l)) by (split; vm_compute; reflexivity).
    assert (Hget : blockingGet (param (setEncodedUri (mDataSource l)) "url")
                     = (NoError, bytes_of "bare")) by (vm_compute; reflexivity).
    assert (Hjson : fromJson (bytes_of "bare") = Some (JsonObject ∅))
      by (vm_compute; reflexivity).
    destruct (proj2 (arcgis_document_missing_entries l _ _ Hkind Hget Hjson
                       ltac:(vm_compute; reflexivity)))
      as [Hflag Hpath].
    { left. vm_compute; reflexivity. }
    split.
    + rewrite Hflag. vm_compute; reflexivity.
    + rewrite Hpath. vm_compute; reflexivity.
Defined.

Lemma resolved_arcgis_style_url_witness :
  let l := QgsVectorTileLayer_new worldSource "world" in
  ∃ l', loadDataSource l = (true, l') ∧
        defaultStyleUrl l' = "https://maps.example.org/World/resources/styles".
Proof.
  intros l.
  assert (Hkind : isArcgisSource (mDataSource l)) by (split; vm_compute; reflexivity).
  assert (Hget : blockingGet (param (setEncodedUri (mDataSource l)) "url")
                   = (NoError, bytes_of "world")) by (vm_compute; reflexivity).
  assert (Hjson : fromJson (bytes_of "world") = Some (JsonObject worldDocument))
    by (vm_compute; reflexivity).
  destruct (resolved_arcgis_style_url l _ _ Hkind Hget Hjson)
    as (l' & Hload & _ & Hurl).
  { vm_compute; reflexivity. }
  { vm_compute; reflexivity. }
  exists l'. split; [exact Hload|]. rewrite Hurl. vm_compute; reflexivity.
Defined.

Lemma resolved_arcgis_metadata_witness :
  let l := QgsVectorTileLayer_new worldSource "world" in
  ∃ l', loadDataSource l = (true, l') ∧
        identifier (arcgisDefaultMetadata l') = "https://maps.example.org/World" ∧
        title (arcgisDefaultMetadata l') = "World Basemap" ∧
        parentIdentifier (arcgisDefaultMetadata l') = "7a2f" ∧
        rights (arcgisDefaultMetadata l') = ["Esri"] ∧
        links (arcgisDefaultMetadata l')
          = [mkLink "Source" "WWW:LINK" "https://maps.example.org/World"].
Proof.
  intros l.
  assert (Hkind : isArcgisSource (mDataSource l)) by (split; vm_compute; reflexivity).
  assert (Hget : blockingGet (param (setEncodedUri (mDataSource l)) "url")
                   = (NoError, bytes_of "world")) by (vm_compute; reflexivity).
  assert (Hjson : fromJson (bytes_of "world") = Some (JsonObject worldDocument))
    by (vm_compute; reflexivity).
  destruct (resolved_arcgis_metadata l _ _ Hkind Hget Hjson)
    as (l' & Hload & _ & Hid & Hlinks & _ & Htitle & Hparent & Hrights).
  { vm_compute; reflexivity. }
  { vm_compute; reflexivity. }
  exists l'. split; [exact Hload|].
  rewrite Hid, Hlinks, Htitle, Hparent, Hrights.
  repeat split; vm_compute; reflexivity.
Defined.

Lemma loadDefaultStyle_installs_converted_style_witness :
  let l := (loadDataSource (QgsVectorTileLayer_new worldSource "world")).2 in
  let loaded := loadDefaultStyle l in
  isArcgisLayer l = true ∧ loaded = (loaded.1.1, true, loaded.2) ∧
  renderer loaded.2 = Some (true, None) ∧ labeling loaded.2 = Some None.
Proof.
  intros l loaded.
  assert (Harcgis : isArcgisLayer l = true) by (vm_compute; reflexivity).
  assert (Hloaded : loaded = (loaded.1.1, true, loaded.2)) by (vm_compute; reflexivity).
  split; [exact Harcgis|]. split; [exact Hloaded|].
  destruct (loadDefaultStyle_installs_converted_style l _ _ Harcgis Hloaded)
    as (raw & Hget & _ & _ & Hren & Hlab & _).
  assert (Hraw : raw = bytes_of "style").
  { assert (Hstyle : blockingGet (defaultStyleUrl l) = (NoError, bytes_of "style"))
      by (vm_compute; reflexivity).
    congruence. }
  rewrite Hren, Hlab, Hraw. split; vm_compute; reflexivity.
Defined.

End WorldService.
